(** * Vertex Color Editor: a shallow embedding of VertexColorEditor.py

    The add-on consists of two operators (Apply, Get), a property group
    holding the current colour and the auto-pick flag, and a handler that
    runs after every dependency-graph update.  This file embeds the three
    [execute]/handler bodies as functions on an explicit context and proves
    the properties the specification states about them.

    Modelling decisions, read off the source and the host interface it uses:
    - a colour channel is an exact rational; the binary rounding of the
      host's float storage is outside the model;
    - [bm.loops.layers.color] are the host's 8-bit colour layers: a colour
      written to a corner is stored with every channel limited to [0, 1]
      and rounded to a multiple of 1/255, and read back as that multiple;
    - [props.vertex_color] is declared with [min=0.0, max=1.0]: these are
      hard limits, so an assignment stores every channel limited to that
      range;
    - a loop (face corner) refers to its vertex by index into [bm.verts]
      (object identity in the source); its per-layer data is a finite map
      from layer names to colours;
    - the BMesh returned by [bmesh.from_edit_mesh] is the edit mesh itself,
      so writing a loop colour mutates the active object's mesh;
    - the host's fill colour for a freshly created layer is a parameter. *)

From Stdlib Require Import QArith Qabs Qround Lqa.
From stdpp Require Import base option list strings gmap.

(** ** Colours and the colour property *)

Record Color := RGBA { red : Q; green : Q; blue : Q; alpha : Q }.

Definition Qgt_bool (x y : Q) : bool := negb (Qle_bool x y).
Definition Qlt_bool (x y : Q) : bool := negb (Qle_bool y x).

(** The keyword arguments of [FloatVectorProperty(...)] that carry meaning
    for the stored value. *)
Record FloatVectorProperty := {
  prop_default : Color;
  prop_min : Q;
  prop_max : Q;
  prop_size : nat
}.

(** [vertex_color: FloatVectorProperty(default=(1.0, 1.0, 1.0, 1.0),
    min=0.0, max=1.0, size=4)] *)
Definition vertex_color_decl : FloatVectorProperty :=
  {| prop_default := RGBA 1 1 1 1;
     prop_min := 0;
     prop_max := 1;
     prop_size := 4 |}.

(** A hard minimum/maximum: a value below the minimum is stored as the
    minimum, a value above the maximum as the maximum. *)
Definition clamp (lo hi x : Q) : Q :=
  if Qlt_bool x lo then lo
  else if Qlt_bool hi x then hi
  else x.

Definition FloatVectorProperty_store (d : FloatVectorProperty) (c : Color) : Color :=
  RGBA (clamp (prop_min d) (prop_max d) (red c))
       (clamp (prop_min d) (prop_max d) (green c))
       (clamp (prop_min d) (prop_max d) (blue c))
       (clamp (prop_min d) (prop_max d) (alpha c)).

(** [class VertexColorProperties(bpy.types.PropertyGroup)] *)
Record VertexColorProperties := {
  vertex_color : Color;
  auto_pick_color : bool
}.

(** A freshly registered property group holds the declared defaults. *)
Definition VertexColorProperties_init : VertexColorProperties :=
  {| vertex_color := prop_default vertex_color_decl;
     auto_pick_color := false |}.

(** [props.vertex_color = c] *)
Definition set_vertex_color (props : VertexColorProperties) (c : Color)
  : VertexColorProperties :=
  {| vertex_color := FloatVectorProperty_store vertex_color_decl c;
     auto_pick_color := auto_pick_color props |}.

(** ** The edit mesh *)

Record BMVert := { select : bool }.

Record BMLoop := {
  vert : nat;
  layer_data : gmap string Color
}.

Record BMFace := { loops : list BMLoop }.

(** [bm.loops.layers.color]: empty ([None]), or a collection with one
    active layer. *)
Record LayerCollection := {
  active : string;
  others : list string
}.

Record BMesh := {
  verts : list BMVert;
  faces : list BMFace;
  loops_layers_color : option LayerCollection
}.

(** [obj.data]: a mesh datablock, which has an edit mesh only while it is
    being edited. *)
Record Mesh := { edit_mesh : option BMesh }.

Record Object := {
  type : string;
  data : Mesh
}.

Record Scene := { vertex_color_props : VertexColorProperties }.

Record Context := {
  mode : string;
  active_object : option Object;
  scene : Scene
}.

(** ** Exceptions, reports and operator results *)

Inductive Exception :=
  | AttributeError   (* attribute access on [None] *)
  | ValueError.      (* [from_edit_mesh] on a mesh that is not in edit mode *)

Inductive result (A : Type) :=
  | Ok (a : A)
  | Err (e : Exception).
Arguments Ok {A} a.
Arguments Err {A} e.

Inductive OperatorReturn := FINISHED | CANCELLED.

Inductive Report :=
  | WARNING_no_selected_verts          (* "没有选中的顶点" *)
  | WARNING_no_color_layer             (* "网格没有顶点颜色层" *)
  | INFO_applied (n : nat)             (* "已应用颜色到 n 个顶点" *)
  | INFO_got (c : Color).              (* "已获取顶点颜色: RGBA(...)", the
                                          channels of [c] being printed *)

Inductive Outcome :=
  | Returned (ret : OperatorReturn) (rep : Report)
  | Raised (e : Exception).

(** The two failures the specification names. *)
Definition NoSelection : Outcome := Returned CANCELLED WARNING_no_selected_verts.
Definition NoColorData : Outcome := Returned CANCELLED WARNING_no_color_layer.

(** ** Host accessors *)

(** [bmesh.from_edit_mesh(me)] on mesh data: the edit mesh, or ValueError
    when the mesh is not in edit mode.  Every object carries mesh data
    here; [poll] and the handler's test admit objects of type MESH only. *)
Definition from_edit_mesh (me : Mesh) : result BMesh :=
  match edit_mesh me with
  | Some bm => Ok bm
  | None => Err ValueError
  end.

(** [loop.vert.select] *)
Definition loop_vert_select (bm : BMesh) (l : BMLoop) : bool :=
  match verts bm !! vert l with
  | Some v => select v
  | None => false
  end.

(** What an 8-bit colour layer keeps of a channel: 0 at or below 0, 255
    above 1 - 0.5/255, and otherwise 255 x + 0.5 cut to an integer. *)
Definition float_to_byte (x : Q) : Z :=
  if Qle_bool x 0 then 0%Z
  else if Qlt_bool (509 # 510) x then 255%Z
  else Qfloor (255 * x + (1 # 2)).

(** A byte of the layer read as a channel: n / 255. *)
Definition byte_to_float (n : Z) : Q := Qred (n # 255).

(** The colour an 8-bit layer holds after [c] was written to it. *)
Definition layer_store (c : Color) : Color :=
  RGBA (byte_to_float (float_to_byte (red c)))
       (byte_to_float (float_to_byte (green c)))
       (byte_to_float (float_to_byte (blue c)))
       (byte_to_float (float_to_byte (alpha c))).

(** [loop[layer] = c] *)
Definition loop_setitem (l : BMLoop) (layer : string) (c : Color) : BMLoop :=
  {| vert := vert l; layer_data := <[layer := layer_store c]> (layer_data l) |}.

(** The edit mesh is shared with the object: a mutated [bm] is the object's
    mesh from then on. *)
Definition with_bmesh (context : Context) (obj : Object) (bm : BMesh) : Context :=
  {| mode := mode context;
     active_object :=
       Some {| type := type obj; data := {| edit_mesh := Some bm |} |};
     scene := scene context |}.

Definition with_props (context : Context) (props : VertexColorProperties) : Context :=
  {| mode := mode context;
     active_object := active_object context;
     scene := {| vertex_color_props := props |} |}.

(** The mesh an operator works on, when there is one. *)
Definition context_bmesh (context : Context) : option BMesh :=
  match active_object context with
  | Some obj => edit_mesh (data obj)
  | None => None
  end.

Definition current_color (context : Context) : Color :=
  vertex_color (vertex_color_props (scene context)).

(** [poll], shared verbatim by both operators and the panel. *)
Definition poll (context : Context) : bool :=
  bool_decide (mode context = "EDIT_MESH") &&
  match active_object context with
  | Some obj => bool_decide (type obj = "MESH")
  | None => false
  end.

(** The scan shared by Get and the handler:
    [for face in bm.faces: for loop in face.loops: if loop.vert.select: ...],
    left at the first hit. *)
Fixpoint first_selected_in_loops (bm : BMesh) (ls : list BMLoop) : option BMLoop :=
  match ls with
  | [] => None
  | l :: ls' =>
      if loop_vert_select bm l then Some l
      else first_selected_in_loops bm ls'
  end.

Fixpoint first_selected_in_faces (bm : BMesh) (fs : list BMFace) : option BMLoop :=
  match fs with
  | [] => None
  | f :: fs' =>
      match first_selected_in_loops bm (loops f) with
      | Some l => Some l
      | None => first_selected_in_faces bm fs'
      end
  end.

Definition first_selected_loop (bm : BMesh) : option BMLoop :=
  first_selected_in_faces bm (faces bm).

Section Host.

(** The colour the host gives every corner of a newly created layer. *)
Variable layer_fill : Color.

(** [loop[layer]]: every loop has a value for every layer, the fill colour
    until something else is written. *)
Definition loop_getitem (l : BMLoop) (layer : string) : Color :=
  default layer_fill (layer_data l !! layer).

(** [bm.loops.layers.color.new(name)].  The first layer of a collection
    becomes its active layer; the source only calls this on an empty
    collection. *)
Definition layers_color_new (name : string) (bm : BMesh) : BMesh :=
  {| verts := verts bm;
     faces :=
       map (λ f,
              {| loops :=
                   map (λ l, {| vert := vert l;
                                layer_data := <[name := layer_fill]> (layer_data l) |})
                       (loops f) |})
           (faces bm);
     loops_layers_color :=
       match loops_layers_color bm with
       | None => Some {| active := name; others := [] |}
       | Some coll => Some {| active := active coll; others := others coll ++ [name] |}
       end |}.

(** Lines 37-40 of the source:
    [if not bm.loops.layers.color: bm.loops.layers.color.new("Col")]
    [color_layer = bm.loops.layers.color.active] *)
Definition ensure_color_layer (bm : BMesh) : BMesh * string :=
  match loops_layers_color bm with
  | Some coll => (bm, active coll)
  | None => (layers_color_new "Col" bm, "Col")
  end.

(** The writing pass of Apply:
    [for face in bm.faces: for loop in face.loops:]
    [    if loop.vert.select: loop[color_layer] = color_to_apply] *)
Definition write_selected (bm : BMesh) (color_layer : string) (c : Color) : BMesh :=
  {| verts := verts bm;
     faces :=
       map (λ f,
              {| loops :=
                   map (λ l, if loop_vert_select bm l
                             then loop_setitem l color_layer c
                             else l)
                       (loops f) |})
           (faces bm);
     loops_layers_color := loops_layers_color bm |}.

(** ** [MESH_OT_apply_vertex_color.execute]

    [ensure_lookup_table] and [bmesh.update_edit_mesh] refresh host-side
    tables and the display; they change nothing that is modelled here. *)
Definition MESH_OT_apply_vertex_color_execute (context : Context)
  : Outcome * Context :=
  match active_object context with
  | None => (Raised AttributeError, context)
  | Some obj =>
      let props := vertex_color_props (scene context) in
      match from_edit_mesh (data obj) with
      | Err e => (Raised e, context)
      | Ok bm =>
          let '(bm, color_layer) := ensure_color_layer bm in
          let selected_verts := List.filter select (verts bm) in
          match selected_verts with
          | [] => (NoSelection, with_bmesh context obj bm)
          | _ :: _ =>
              let color_to_apply := vertex_color props in
              let bm := write_selected bm color_layer color_to_apply in
              (Returned FINISHED (INFO_applied (length selected_verts)),
               with_bmesh context obj bm)
          end
      end
  end.

(** ** [MESH_OT_get_vertex_color.execute] *)
Definition MESH_OT_get_vertex_color_execute (context : Context)
  : Outcome * Context :=
  match active_object context with
  | None => (Raised AttributeError, context)
  | Some obj =>
      let props := vertex_color_props (scene context) in
      match from_edit_mesh (data obj) with
      | Err e => (Raised e, context)
      | Ok bm =>
          match loops_layers_color bm with
          | None => (NoColorData, context)
          | Some coll =>
              let color_layer := active coll in
              match first_selected_loop bm with
              | Some loop =>
                  let color := loop_getitem loop color_layer in
                  (Returned FINISHED (INFO_got color),
                   with_props context (set_vertex_color props color))
              | None => (NoSelection, context)
              end
          end
      end
  end.

(** ** [selection_update_handler]

    The handler receives the scene and reads everything else from
    [bpy.context]; the scene it is given is the scene of that context. *)

(** The test that guards the assignment in the handler. *)
Definition differs_beyond_threshold (current color : Color) : bool :=
  Qgt_bool (Qabs (red current - red color)) (1 # 1000) ||
  Qgt_bool (Qabs (green current - green color)) (1 # 1000) ||
  Qgt_bool (Qabs (blue current - blue color)) (1 # 1000) ||
  Qgt_bool (Qabs (alpha current - alpha color)) (1 # 1000).

(** The body of the [try:] block.  [Err] is an exception raised inside it;
    nothing has been assigned when one is raised. *)
Definition selection_update_try (context : Context) (obj : Object)
  : result Context :=
  let props := vertex_color_props (scene context) in
  match from_edit_mesh (data obj) with
  | Err e => Err e
  | Ok bm =>
      match loops_layers_color bm with
      | None => Ok context
      | Some coll =>
          let color_layer := active coll in
          match first_selected_loop bm with
          | Some loop =>
              let color := loop_getitem loop color_layer in
              if differs_beyond_threshold (vertex_color props) color
              then Ok (with_props context (set_vertex_color props color))
              else Ok context
          | None => Ok context
          end
      end
  end.

Definition selection_update_handler (context : Context) : Context :=
  let props := vertex_color_props (scene context) in
  if negb (auto_pick_color props) then context
  else
  if negb (bool_decide (mode context = "EDIT_MESH"))
       || match active_object context with
          | None => true
          | Some obj => negb (bool_decide (type obj = "MESH"))
          end
  then context
  else
    match active_object context with
    | None => context            (* excluded by the test above *)
    | Some obj =>
        match selection_update_try context obj with
        | Ok context' => context'
        | Err _ => context       (* except: pass *)
        end
    end.

End Host.

(** ** Vocabulary of the specification *)

(** The corners of a mesh in its native enumeration order: face by face,
    and within a face loop by loop. *)
Definition corners (bm : BMesh) : list BMLoop :=
  concat (map loops (faces bm)).

(** A valid RGBA colour: every channel in [0, 1]. *)
Definition channel_valid (x : Q) : Prop := (0 <= x)%Q ∧ (x <= 1)%Q.

Definition color_valid (c : Color) : Prop :=
  channel_valid (red c) ∧ channel_valid (green c) ∧
  channel_valid (blue c) ∧ channel_valid (alpha c).

Definition no_vertex_selected (bm : BMesh) : Prop :=
  Forall (λ v, select v = false) (verts bm).

Definition some_vertex_selected (bm : BMesh) : Prop :=
  ∃ v, v ∈ verts bm ∧ select v = true.

Definition some_corner_selected (bm : BMesh) : Prop :=
  ∃ l, l ∈ corners bm ∧ loop_vert_select bm l = true.

(** How many corners the writing pass of Apply assigns. *)
Definition corners_written (bm : BMesh) : nat :=
  length (List.filter (loop_vert_select bm) (corners bm)).

(** A colour an 8-bit layer holds as it is: every channel is n / 255 for
    a byte n. *)
Definition channel_8bit (x : Q) : Prop :=
  ∃ n : Z, (0 ≤ n ≤ 255)%Z ∧ x = byte_to_float n.

Definition color_8bit (c : Color) : Prop :=
  channel_8bit (red c) ∧ channel_8bit (green c) ∧
  channel_8bit (blue c) ∧ channel_8bit (alpha c).

(** What Apply with colour [c] on mesh [bm] promises about one corner [l]
    and the same corner [l'] afterwards, [layer] being the active layer
    afterwards and [layer_fill] the host's fill of a new layer: a corner of
    a selected vertex holds there [c] as the 8-bit layer stores it and is
    as before in every other layer; any other corner is as it was, and on
    a mesh that had no layer it has the fill colour in the new one. *)
Definition corner_after_apply
    (layer_fill : Color) (bm : BMesh) (layer : string) (c : Color)
    (l l' : BMLoop) : Prop :=
  vert l' = vert l ∧
  if loop_vert_select bm l
  then layer_data l' !! layer = Some (layer_store c) ∧
       ∀ n, n ≠ layer → layer_data l' !! n = layer_data l !! n
  else match loops_layers_color bm with
       | Some _ => l' = l
       | None => layer_data l' = <[layer := layer_fill]> (layer_data l)
       end.

(** Two colours that agree up to 0.001 in every channel. *)
Definition within_threshold (a b : Color) : Prop :=
  (Qabs (red a - red b) <= 1 # 1000)%Q ∧
  (Qabs (green a - green b) <= 1 # 1000)%Q ∧
  (Qabs (blue a - blue b) <= 1 # 1000)%Q ∧
  (Qabs (alpha a - alpha b) <= 1 # 1000)%Q.

(** The Guard is active on [context] and the first matching corner of the
    mesh holds colour [c] in the active layer. *)
Definition Guard_reads (layer_fill : Color) (context : Context) (c : Color) : Prop :=
  ∃ obj bm coll l,
    auto_pick_color (vertex_color_props (scene context)) = true ∧
    mode context = "EDIT_MESH" ∧
    active_object context = Some obj ∧
    type obj = "MESH" ∧
    edit_mesh (data obj) = Some bm ∧
    loops_layers_color bm = Some coll ∧
    first_selected_loop bm = Some l ∧
    c = loop_getitem layer_fill l (active coll).

(** ** Example meshes *)

Definition white : Color := RGBA 1 1 1 1.

Definition bare (v : nat) : BMLoop := {| vert := v; layer_data := ∅ |}.

(** Two triangles sharing vertex 0, which is the only selected vertex; no
    colour layer. *)
Definition shared_vertex_mesh : BMesh :=
  {| verts := [ {| select := true |}; {| select := false |};
                {| select := false |}; {| select := false |};
                {| select := false |} ];
     faces := [ {| loops := [bare 0; bare 1; bare 2] |};
                {| loops := [bare 0; bare 3; bare 4] |} ];
     loops_layers_color := None |}.

(** One triangle of unselected vertices and a selected vertex that belongs
    to no face; a colour layer exists. *)
Definition loose_vertex_mesh : BMesh :=
  {| verts := [ {| select := false |}; {| select := false |};
                {| select := false |}; {| select := true |} ];
     faces := [ {| loops := [bare 0; bare 1; bare 2] |} ];
     loops_layers_color := Some {| active := "Col"; others := [] |} |}.

(** The same triangle with nothing selected and no colour layer. *)
Definition unselected_mesh : BMesh :=
  {| verts := [ {| select := false |}; {| select := false |};
                {| select := false |} ];
     faces := [ {| loops := [bare 0; bare 1; bare 2] |} ];
     loops_layers_color := None |}.

(** A triangle whose first corner is selected and holds a colour outside
    the property's range in its red channel (a state no write through an
    8-bit layer produces; it shows the hard limits at work). *)
Definition bright_mesh : BMesh :=
  {| verts := [ {| select := true |}; {| select := false |};
                {| select := false |} ];
     faces := [ {| loops := [ {| vert := 0;
                                 layer_data := {[ "Col" := RGBA 2 (1#2) (1#4) 1 ]} |};
                              bare 1; bare 2 ] |} ];
     loops_layers_color := Some {| active := "Col"; others := [] |} |}.

(** Mid grey, which no 8-bit layer holds: 0.5 lies between 127/255 and
    128/255. *)
Definition grey : Color := RGBA (1 # 2) (1 # 2) (1 # 2) 1.

(** What an 8-bit layer holds after [grey] was written. *)
Definition grey_8bit : Color := RGBA (128 # 255) (128 # 255) (128 # 255) 1.

(** The colour (0.2, 0.4, 0.6, 1.0) of the specification's scenario. *)
Definition tint : Color := RGBA (1 # 5) (2 # 5) (3 # 5) 1.

(** A triangle whose first corner is selected and holds that colour;
    nothing else is selected. *)
Definition tinted_mesh : BMesh :=
  {| verts := [ {| select := true |}; {| select := false |};
                {| select := false |} ];
     faces := [ {| loops := [ {| vert := 0; layer_data := {[ "Col" := tint ]} |};
                              bare 1; bare 2 ] |} ];
     loops_layers_color := Some {| active := "Col"; others := [] |} |}.

(** A triangle with a colour layer and nothing selected. *)
Definition plain_mesh : BMesh :=
  {| verts := [ {| select := false |}; {| select := false |};
                {| select := false |} ];
     faces := [ {| loops := [bare 0; bare 1; bare 2] |} ];
     loops_layers_color := Some {| active := "Col"; others := [] |} |}.

(** Mesh-editing mode with an active mesh object that has no edit mesh:
    [bmesh.from_edit_mesh] raises there. *)
Definition no_edit_mesh : Context :=
  {| mode := "EDIT_MESH";
     active_object := Some {| type := "MESH"; data := {| edit_mesh := None |} |};
     scene := {| vertex_color_props :=
                   {| vertex_color := RGBA 1 1 1 1; auto_pick_color := true |} |} |}.

Definition editing (bm : BMesh) (c : Color) (auto : bool) : Context :=
  {| mode := "EDIT_MESH";
     active_object := Some {| type := "MESH"; data := {| edit_mesh := Some bm |} |};
     scene := {| vertex_color_props :=
                   {| vertex_color := c; auto_pick_color := auto |} |} |}.

(** The colour [tint] with its red channel moved by exactly 0.001. *)
Definition near_tint : Color := RGBA (201 # 1000) (2 # 5) (3 # 5) 1.

(** The same mesh with its faces enumerated in the opposite order. *)
Definition reverse_faces (bm : BMesh) : BMesh :=
  {| verts := verts bm;
     faces := rev (faces bm);
     loops_layers_color := loops_layers_color bm |}.

(** What Apply with [tint] leaves of [shared_vertex_mesh] when the host
    fills new layers with white. *)
Definition applied_mesh : BMesh :=
  write_selected (layers_color_new white "Col" shared_vertex_mesh) "Col" tint.

(** ** An editing session

    What the host can make the add-on do to a context: the user presses
    Get or Apply, or a dependency-graph update calls the handler. *)
Inductive Operation := PressGet | PressApply | DepsgraphUpdate.

Definition perform (layer_fill : Color) (context : Context) (op : Operation)
  : Context :=
  match op with
  | PressGet => snd (MESH_OT_get_vertex_color_execute layer_fill context)
  | PressApply => snd (MESH_OT_apply_vertex_color_execute layer_fill context)
  | DepsgraphUpdate => selection_update_handler layer_fill context
  end.

Definition session (layer_fill : Color) (ops : list Operation) (context : Context)
  : Context :=
  fold_left (perform layer_fill) ops context.

Definition is_update (op : Operation) : bool :=
  match op with DepsgraphUpdate => true | _ => false end.

(** ** Registration with the host: [register] and [unregister]

    The part of [bpy] the two functions touch.  Classes, draw functions and
    handlers are Python objects compared by identity; they are named here
    by their source identifiers, so that entries of other add-ons can sit
    beside this add-on's. *)

Record Bpy := {
  (** classes registered through [bpy.utils.register_class] *)
  registered_classes : gset string;
  (** properties defined on [bpy.types.Scene], with the class they point to *)
  Scene_properties : gmap string string;
  (** draw functions of [bpy.types.VIEW3D_MT_edit_mesh_context_menu] *)
  VIEW3D_MT_edit_mesh_context_menu : list string;
  (** [bpy.app.handlers.depsgraph_update_post], a Python list *)
  depsgraph_update_post : list string
}.

Inductive RegistrationError :=
  | AlreadyRegistered (cls : string)   (* [register_class] on a registered class *)
  | NotRegistered (cls : string)       (* [unregister_class] on an unknown class *)
  | NotInList (x : string)             (* [list.remove(x)]: x not in list *)
  | NoAttribute (name : string).       (* [del] of a missing attribute *)

(** A step of a module-level function: it may raise, and in either case
    leaves the host in some state. *)
Definition Script (A : Type) : Type := Bpy → (RegistrationError + A) * Bpy.

#[global] Instance script_ret : MRet Script := λ A a h, (inr a, h).

#[global] Instance script_bind : MBind Script := λ A B k m h,
  match m h with
  | (inr a, h') => k a h'
  | (inl e, h') => (inl e, h')
  end.

(** [for x in xs: body(x)] *)
Fixpoint for_each {A} (xs : list A) (body : A → Script unit) : Script unit :=
  match xs with
  | [] => mret ()
  | x :: xs' => body x ;; for_each xs' body
  end.

(** [l.remove(x)] of a Python list: the first occurrence goes; [None] when
    there is none. *)
Fixpoint list_remove (x : string) (l : list string) : option (list string) :=
  match l with
  | [] => None
  | y :: l' =>
      if decide (y = x) then Some l'
      else option_map (cons y) (list_remove x l')
  end.

(** [bpy.utils.register_class(cls)] *)
Definition register_class (cls : string) : Script unit := λ h,
  if decide (cls ∈ registered_classes h)
  then (inl (AlreadyRegistered cls), h)
  else (inr (),
        {| registered_classes := {[cls]} ∪ registered_classes h;
           Scene_properties := Scene_properties h;
           VIEW3D_MT_edit_mesh_context_menu := VIEW3D_MT_edit_mesh_context_menu h;
           depsgraph_update_post := depsgraph_update_post h |}).

(** [bpy.utils.unregister_class(cls)] *)
Definition unregister_class (cls : string) : Script unit := λ h,
  if decide (cls ∈ registered_classes h)
  then (inr (),
        {| registered_classes := registered_classes h ∖ {[cls]};
           Scene_properties := Scene_properties h;
           VIEW3D_MT_edit_mesh_context_menu := VIEW3D_MT_edit_mesh_context_menu h;
           depsgraph_update_post := depsgraph_update_post h |})
  else (inl (NotRegistered cls), h).

(** [bpy.types.Scene.<name> = bpy.props.PointerProperty(type=<cls>)] *)
Definition Scene_set_property (name cls : string) : Script unit := λ h,
  (inr (),
   {| registered_classes := registered_classes h;
      Scene_properties := <[name := cls]> (Scene_properties h);
      VIEW3D_MT_edit_mesh_context_menu := VIEW3D_MT_edit_mesh_context_menu h;
      depsgraph_update_post := depsgraph_update_post h |}).

(** [del bpy.types.Scene.<name>] *)
Definition Scene_del_property (name : string) : Script unit := λ h,
  match Scene_properties h !! name with
  | None => (inl (NoAttribute name), h)
  | Some _ =>
      (inr (),
       {| registered_classes := registered_classes h;
          Scene_properties := delete name (Scene_properties h);
          VIEW3D_MT_edit_mesh_context_menu := VIEW3D_MT_edit_mesh_context_menu h;
          depsgraph_update_post := depsgraph_update_post h |})
  end.

(** [Menu.append(draw_func)]: the function goes to the end of the menu's
    list of draw functions. *)
Definition menu_append (draw_func : string) : Script unit := λ h,
  (inr (),
   {| registered_classes := registered_classes h;
      Scene_properties := Scene_properties h;
      VIEW3D_MT_edit_mesh_context_menu :=
        VIEW3D_MT_edit_mesh_context_menu h ++ [draw_func];
      depsgraph_update_post := depsgraph_update_post h |}).

(** [Menu.remove(draw_func)]: [list.remove] on the menu's draw functions,
    a missing function being ignored by the host. *)
Definition menu_remove (draw_func : string) : Script unit := λ h,
  (inr (),
   {| registered_classes := registered_classes h;
      Scene_properties := Scene_properties h;
      VIEW3D_MT_edit_mesh_context_menu :=
        default (VIEW3D_MT_edit_mesh_context_menu h)
                (list_remove draw_func (VIEW3D_MT_edit_mesh_context_menu h));
      depsgraph_update_post := depsgraph_update_post h |}).

(** [f in bpy.app.handlers.depsgraph_update_post] *)
Definition handlers_contain (f : string) : Script bool := λ h,
  (inr (bool_decide (f ∈ depsgraph_update_post h)), h).

(** [bpy.app.handlers.depsgraph_update_post.append(f)] *)
Definition handlers_append (f : string) : Script unit := λ h,
  (inr (),
   {| registered_classes := registered_classes h;
      Scene_properties := Scene_properties h;
      VIEW3D_MT_edit_mesh_context_menu := VIEW3D_MT_edit_mesh_context_menu h;
      depsgraph_update_post := depsgraph_update_post h ++ [f] |}).

(** [bpy.app.handlers.depsgraph_update_post.remove(f)] *)
Definition handlers_remove (f : string) : Script unit := λ h,
  match list_remove f (depsgraph_update_post h) with
  | None => (inl (NotInList f), h)
  | Some l =>
      (inr (),
       {| registered_classes := registered_classes h;
          Scene_properties := Scene_properties h;
          VIEW3D_MT_edit_mesh_context_menu := VIEW3D_MT_edit_mesh_context_menu h;
          depsgraph_update_post := l |})
  end.

(** [classes = (VertexColorProperties, MESH_OT_apply_vertex_color,
    MESH_OT_get_vertex_color, VIEW3D_PT_vertex_color_panel)] *)
Definition classes : list string :=
  [ "VertexColorProperties"; "MESH_OT_apply_vertex_color";
    "MESH_OT_get_vertex_color"; "VIEW3D_PT_vertex_color_panel" ].

(** [def register()] *)
Definition register : Script unit :=
  for_each classes register_class ;;
  Scene_set_property "vertex_color_props" "VertexColorProperties" ;;
  menu_append "draw_vertex_color_menu" ;;
  handlers_contain "selection_update_handler" ≫= λ present : bool,
  if negb present
  then handlers_append "selection_update_handler"
  else mret ().

(** [def unregister()] *)
Definition unregister : Script unit :=
  handlers_contain "selection_update_handler" ≫= λ present : bool,
  (if present return Script unit
   then handlers_remove "selection_update_handler"
   else mret ()) ;;
  menu_remove "draw_vertex_color_menu" ;;
  Scene_del_property "vertex_color_props" ;;
  for_each (rev classes) unregister_class.

(** A host on which nothing of this add-on is present. *)
Definition addon_absent (h : Bpy) : Prop :=
  (∀ cls, cls ∈ classes → cls ∉ registered_classes h) ∧
  Scene_properties h !! "vertex_color_props" = None ∧
  ("draw_vertex_color_menu" ∉ VIEW3D_MT_edit_mesh_context_menu h) ∧
  ("selection_update_handler" ∉ depsgraph_update_post h).

(** A host with a class, a menu entry and a handler of some other add-on. *)
Definition busy_host : Bpy :=
  {| registered_classes := {[ "OTHER_OT_tool" ]};
     Scene_properties := {[ "other_props" := "OtherProperties" ]};
     VIEW3D_MT_edit_mesh_context_menu := [ "draw_other_menu" ];
     depsgraph_update_post := [ "other_handler" ] |}.

(** * Properties *)

(** ** The hard limits of the colour property *)

Lemma Qlt_bool_false x y : Qlt_bool x y = false ↔ (y <= x)%Q.
Proof.
  unfold Qlt_bool. rewrite negb_false_iff. apply Qle_bool_iff.
Qed.

Lemma Qgt_bool_false x y : Qgt_bool x y = false ↔ (x <= y)%Q.
Proof.
  unfold Qgt_bool. rewrite negb_false_iff. apply Qle_bool_iff.
Qed.

Lemma clamp_in_range x : channel_valid (clamp 0 1 x).
Proof.
  unfold clamp, channel_valid.
  destruct (Qlt_bool x 0) eqn:H0.
  - split; [apply Qle_refl | discriminate].
  - apply Qlt_bool_false in H0.
    destruct (Qlt_bool 1 x) eqn:H1.
    + split; [discriminate | apply Qle_refl].
    + apply Qlt_bool_false in H1. split; assumption.
Qed.

Lemma clamp_id x : channel_valid x → clamp 0 1 x = x.
Proof.
  intros [H0 H1]. unfold clamp.
  apply Qlt_bool_false in H0, H1. by rewrite H0, H1.
Qed.

Lemma store_valid c : color_valid (FloatVectorProperty_store vertex_color_decl c).
Proof.
  unfold color_valid, FloatVectorProperty_store; simpl.
  repeat split; apply clamp_in_range.
Qed.

Lemma store_id c :
  color_valid c → FloatVectorProperty_store vertex_color_decl c = c.
Proof.
  intros (Hr & Hg & Hb & Ha). destruct c as [r g b a]; simpl in *.
  unfold FloatVectorProperty_store; simpl.
  by rewrite !clamp_id.
Qed.

Lemma same_color_within_threshold c : differs_beyond_threshold c c = false.
Proof.
  assert (Hz : ∀ x : Q, Qgt_bool (Qabs (x - x)) (1 # 1000) = false).
  { intros x. apply Qgt_bool_false.
    assert (Hx : (x - x == 0)%Q) by ring.
    rewrite Hx. discriminate. }
  unfold differs_beyond_threshold. by rewrite !Hz.
Qed.

(** ** The 8-bit colour layer *)

(** A property of bytes that a computation confirms on all 256 of them. *)
Lemma bytes_forall (P : Z → bool) :
  forallb P (map Z.of_nat (seq 0 256)) = true →
  ∀ n, (0 ≤ n ≤ 255)%Z → P n = true.
Proof.
  intros Hall n Hn. rewrite forallb_forall in Hall. apply Hall.
  rewrite <- (Z2Nat.id n) by lia. apply in_map, in_seq. lia.
Qed.

Lemma float_to_byte_range x : (0 ≤ float_to_byte x ≤ 255)%Z.
Proof.
  unfold float_to_byte.
  destruct (Qle_bool x 0) eqn:H0; [lia|].
  destruct (Qlt_bool (509 # 510) x) eqn:H1; [lia|].
  apply Qlt_bool_false in H1.
  assert (Hpos : (0 < x)%Q).
  { apply Qnot_le_lt. intros Hle. apply Qle_bool_iff in Hle. congruence. }
  split.
  - apply (Z.le_trans _ (Qfloor 0)); [done|]. apply Qfloor_resp_le. lra.
  - apply (Z.le_trans _ (Qfloor 255)); [|done]. apply Qfloor_resp_le. lra.
Qed.

Lemma byte_round_trip n :
  (0 ≤ n ≤ 255)%Z → float_to_byte (byte_to_float n) = n.
Proof.
  intros Hn. apply Z.eqb_eq.
  apply (bytes_forall (λ n, float_to_byte (byte_to_float n) =? n)%Z); [|done].
  by vm_compute.
Qed.

Lemma byte_to_float_valid n :
  (0 ≤ n ≤ 255)%Z → channel_valid (byte_to_float n).
Proof.
  intros Hn.
  pose proof (bytes_forall
    (λ n, Qle_bool 0 (byte_to_float n) && Qle_bool (byte_to_float n) 1)) as Hall.
  specialize (Hall ltac:(by vm_compute) n Hn).
  apply andb_true_iff in Hall as [H0 H1].
  split; by apply Qle_bool_iff.
Qed.

Lemma channel_8bit_stored x : channel_8bit (byte_to_float (float_to_byte x)).
Proof. exists (float_to_byte x). split; [apply float_to_byte_range | done]. Qed.

Lemma channel_8bit_id x :
  channel_8bit x → byte_to_float (float_to_byte x) = x.
Proof. intros (n & Hn & ->). by rewrite byte_round_trip. Qed.

(** Whatever is written, the layer holds an 8-bit colour; an 8-bit colour
    is held as it is, and it is a valid RGBA colour. *)
Lemma layer_store_8bit c : color_8bit (layer_store c).
Proof. repeat split; apply channel_8bit_stored. Qed.

Lemma layer_store_id c : color_8bit c → layer_store c = c.
Proof.
  intros (Hr & Hg & Hb & Ha). destruct c as [r g b a]; simpl in *.
  unfold layer_store; simpl. by rewrite !channel_8bit_id.
Qed.

Lemma color_8bit_valid c : color_8bit c → color_valid c.
Proof.
  intros ((nr & Hnr & Hr) & (ng & Hng & Hg) & (nb & Hnb & Hb) & (na & Hna & Ha)).
  unfold color_valid. rewrite Hr, Hg, Hb, Ha.
  repeat split; by apply byte_to_float_valid.
Qed.

Lemma layer_store_valid c : color_valid (layer_store c).
Proof. apply color_8bit_valid, layer_store_8bit. Qed.

(** ** The scan for the first selected corner *)

Lemma first_selected_in_loops_app bm ls1 ls2 :
  first_selected_in_loops bm (ls1 ++ ls2) =
  match first_selected_in_loops bm ls1 with
  | Some l => Some l
  | None => first_selected_in_loops bm ls2
  end.
Proof.
  induction ls1 as [|l ls1 IH]; simpl; [done|].
  by destruct (loop_vert_select bm l).
Qed.

Lemma first_selected_in_faces_corners bm fs :
  first_selected_in_faces bm fs =
  first_selected_in_loops bm (concat (map loops fs)).
Proof.
  induction fs as [|f fs IH]; simpl; [done|].
  by rewrite first_selected_in_loops_app, IH.
Qed.

Lemma first_selected_loop_corners bm :
  first_selected_loop bm = first_selected_in_loops bm (corners bm).
Proof. apply first_selected_in_faces_corners. Qed.

Lemma first_selected_in_loops_split bm pre l post :
  Forall (λ l', loop_vert_select bm l' = false) pre →
  loop_vert_select bm l = true →
  first_selected_in_loops bm (pre ++ l :: post) = Some l.
Proof.
  intros Hpre Hl. induction Hpre as [|l0 pre H0 _ IH]; simpl.
  - by rewrite Hl.
  - by rewrite H0.
Qed.

Lemma first_selected_in_loops_Some bm ls l :
  first_selected_in_loops bm ls = Some l →
  ∃ pre post, ls = pre ++ l :: post ∧
    Forall (λ l', loop_vert_select bm l' = false) pre ∧
    loop_vert_select bm l = true.
Proof.
  induction ls as [|l0 ls IH]; simpl; [done|].
  destruct (loop_vert_select bm l0) eqn:H0.
  - intros [= ->]. exists [], ls. by repeat split.
  - intros H. destruct (IH H) as (pre & post & -> & Hpre & Hl).
    exists (l0 :: pre), post. repeat split; [by constructor | done].
Qed.

Lemma first_selected_in_loops_None bm ls :
  first_selected_in_loops bm ls = None ↔
  Forall (λ l, loop_vert_select bm l = false) ls.
Proof.
  induction ls as [|l0 ls IH]; simpl.
  - split; [constructor | done].
  - destruct (loop_vert_select bm l0) eqn:H0.
    + split; [done|]. intros H. apply Forall_cons in H as [H _]. congruence.
    + rewrite IH. split; [by constructor | by intros [_ ?]%Forall_cons].
Qed.

Lemma some_corner_selected_first bm :
  some_corner_selected bm →
  ∃ pre l post, corners bm = pre ++ l :: post ∧
    Forall (λ l', loop_vert_select bm l' = false) pre ∧
    loop_vert_select bm l = true.
Proof.
  intros (l & Hin & Hl).
  destruct (first_selected_in_loops bm (corners bm)) as [l1|] eqn:H.
  - apply first_selected_in_loops_Some in H as (pre & post & ? & ? & ?).
    by exists pre, l1, post.
  - apply first_selected_in_loops_None in H.
    rewrite Forall_forall in H. specialize (H l Hin). congruence.
Qed.


Lemma selected_corner_selected_vertex bm l :
  loop_vert_select bm l = true → some_vertex_selected bm.
Proof.
  unfold loop_vert_select.
  destruct (verts bm !! vert l) as [v|] eqn:Hv; [|done].
  intros Hs. exists v. split; [|done].
  by eapply list_elem_of_lookup_2.
Qed.

Lemma no_vertex_no_corner bm l :
  no_vertex_selected bm → loop_vert_select bm l = false.
Proof.
  intros Hno. unfold loop_vert_select.
  destruct (verts bm !! vert l) as [v|] eqn:Hv; [|done].
  unfold no_vertex_selected in Hno. rewrite Forall_forall in Hno.
  apply Hno. by eapply list_elem_of_lookup_2.
Qed.

Lemma no_vertex_selected_first bm :
  no_vertex_selected bm → first_selected_loop bm = None.
Proof.
  intros Hno. rewrite first_selected_loop_corners.
  apply first_selected_in_loops_None, Forall_forall.
  intros l _. by apply no_vertex_no_corner.
Qed.

Lemma no_vertex_selected_filter bm :
  no_vertex_selected bm → List.filter select (verts bm) = [].
Proof.
  unfold no_vertex_selected. induction 1 as [|v vs Hv _ IH]; simpl; [done|].
  by rewrite Hv.
Qed.

Lemma some_vertex_selected_filter bm :
  some_vertex_selected bm → List.filter select (verts bm) ≠ [].
Proof.
  intros (v & Hin & Hs) Hnil.
  assert (Hf : In v (List.filter select (verts bm))).
  { apply filter_In. split; [by apply list_elem_of_In | done]. }
  rewrite Hnil in Hf. destruct Hf.
Qed.

(** ** Contexts *)

Lemma context_bmesh_inv context bm :
  context_bmesh context = Some bm →
  ∃ obj, active_object context = Some obj ∧ edit_mesh (data obj) = Some bm.
Proof.
  unfold context_bmesh. destruct (active_object context) as [obj|]; [|done].
  intros H. by exists obj.
Qed.

Lemma with_bmesh_same context obj bm :
  active_object context = Some obj →
  edit_mesh (data obj) = Some bm →
  with_bmesh context obj bm = context.
Proof.
  destruct context as [m ao sc], obj as [ty [em]]; simpl.
  intros -> ->. reflexivity.
Qed.

Section Claims.

Variable layer_fill : Color.

Local Abbreviation Apply := (MESH_OT_apply_vertex_color_execute layer_fill).
Local Abbreviation Get := (MESH_OT_get_vertex_color_execute layer_fill).
Local Abbreviation Guard := (selection_update_handler layer_fill).

(** Unfold an operator on a context whose edit mesh is known. *)
Ltac on_mesh H :=
  let obj := fresh "obj" in
  let Hobj := fresh "Hobj" in
  let Hbm := fresh "Hbm" in
  apply context_bmesh_inv in H as (obj & Hobj & Hbm);
  unfold MESH_OT_apply_vertex_color_execute, MESH_OT_get_vertex_color_execute,
    from_edit_mesh;
  rewrite ?Hobj, ?Hbm.

(** Get never touches the mesh, and whatever it stores is a valid colour. *)
Lemma Get_outcomes context :
  snd (Get context) = context ∨
  ∃ c, snd (Get context) =
       with_props context (set_vertex_color (vertex_color_props (scene context)) c).
Proof.
  unfold MESH_OT_get_vertex_color_execute.
  destruct (active_object context) as [obj|]; [|by left].
  destruct (from_edit_mesh (data obj)) as [bm|e]; [|by left].
  destruct (loops_layers_color bm) as [coll|]; [|by left].
  destruct (first_selected_loop bm) as [l|]; [|by left].
  right. by eexists.
Qed.

Lemma Guard_outcomes context :
  Guard context = context ∨
  ∃ c, Guard context =
       with_props context (set_vertex_color (vertex_color_props (scene context)) c).
Proof.
  unfold selection_update_handler, selection_update_try.
  destruct (negb (auto_pick_color _)); [by left|].
  destruct (_ || _); [by left|].
  destruct (active_object context) as [obj|]; [|by left].
  destruct (from_edit_mesh (data obj)) as [bm|e]; [|by left].
  destruct (loops_layers_color bm) as [coll|]; [|by left].
  destruct (first_selected_loop bm) as [l|]; [|by left].
  destruct (differs_beyond_threshold _ _); [|by left].
  right. by eexists.
Qed.

Lemma Apply_keeps_props context :
  scene (snd (Apply context)) = scene context.
Proof.
  unfold MESH_OT_apply_vertex_color_execute.
  destruct (active_object context) as [obj|]; [|done].
  destruct (from_edit_mesh (data obj)) as [bm|e]; [|done].
  destruct (ensure_color_layer layer_fill bm) as [bm1 layer].
  by destruct (List.filter select (verts bm1)).
Qed.

(** C6.  Get fails with NoColorData on a mesh without a colour layer and
    with NoSelection on a mesh that has one but no selected vertex; in both
    cases the whole context (mesh and Current Color Value) is returned as it
    was.  More generally the context changes only when Get returns FINISHED,
    and the mesh is never changed by Get. *)
Theorem Get_failures_mutate_nothing (context : Context) :
  (∀ bm, context_bmesh context = Some bm →
         loops_layers_color bm = None →
         Get context = (NoColorData, context)) ∧
  (∀ bm, context_bmesh context = Some bm →
         is_Some (loops_layers_color bm) →
         no_vertex_selected bm →
         Get context = (NoSelection, context)) ∧
  ((∀ rep, fst (Get context) ≠ Returned FINISHED rep) →
   snd (Get context) = context) ∧
  context_bmesh (snd (Get context)) = context_bmesh context.
Proof.
  repeat split.
  - intros bm H Hnone. on_mesh H. by rewrite Hnone.
  - intros bm H [coll Hcoll] Hno. on_mesh H.
    by rewrite Hcoll, no_vertex_selected_first.
  - unfold MESH_OT_get_vertex_color_execute.
    destruct (active_object context) as [obj|]; [|done].
    destruct (from_edit_mesh (data obj)) as [bm|e]; [|done].
    destruct (loops_layers_color bm) as [coll|]; [|done].
    destruct (first_selected_loop bm) as [l|]; [|done].
    simpl. intros H. by destruct (H (INFO_got (loop_getitem layer_fill l (active coll)))).
  - by destruct (Get_outcomes context) as [-> | [c ->]].
Qed.

(** C7.  When the Auto-Sync Flag is off, or there is no active object, or
    the mode is not mesh editing, or the active object is not a mesh, or
    the mesh has no colour layer, or the [try] block raises, the Guard
    returns the context it was given: Current Color Value and mesh are
    exactly as before.  The Guard is a total function on contexts: an
    exception of the [try] block is not part of its result. *)
Theorem Guard_silent_when_inactive (context : Context) :
  auto_pick_color (vertex_color_props (scene context)) = false ∨
  active_object context = None ∨
  mode context ≠ "EDIT_MESH" ∨
  (∃ obj, active_object context = Some obj ∧ type obj ≠ "MESH") ∨
  (∃ bm, context_bmesh context = Some bm ∧ loops_layers_color bm = None) ∨
  (∃ obj e, active_object context = Some obj ∧
            selection_update_try layer_fill context obj = Err e) →
  Guard context = context.
Proof.
  unfold selection_update_handler.
  intros [Hflag | [Hnone | [Hmode | [(obj & Hobj & Hty) | [(bm & Hbm & Hlayer) | (obj & e & Hobj & Herr)]]]]].
  - by rewrite Hflag.
  - rewrite Hnone. destruct (negb _); [done|]. by rewrite orb_true_r.
  - rewrite (bool_decide_eq_false_2 _ Hmode). simpl. by destruct (negb _).
  - rewrite Hobj, (bool_decide_eq_false_2 _ Hty). simpl.
    destruct (negb _); [done|]. by rewrite orb_true_r.
  - apply context_bmesh_inv in Hbm as (obj & Hobj & Hbm).
    rewrite Hobj. unfold selection_update_try, from_edit_mesh.
    rewrite Hbm, Hlayer. destruct (negb _); [done|]. by destruct (_ || _).
  - rewrite Hobj, Herr. destruct (negb _); [done|]. by destruct (_ || _).
Qed.

(** C9.  A freshly registered property group holds opaque white, which is a
    valid colour, and Get, Apply and the Guard each map a context whose
    Current Color Value has all four channels in [0, 1] to one that has. *)
Theorem current_color_stays_valid (context : Context) :
  color_valid (current_color context) →
  vertex_color VertexColorProperties_init = RGBA 1 1 1 1 ∧
  color_valid (vertex_color VertexColorProperties_init) ∧
  color_valid (current_color (snd (Get context))) ∧
  color_valid (current_color (snd (Apply context))) ∧
  color_valid (current_color (Guard context)).
Proof.
  intros Hvalid. split; [done|]. split.
  { unfold color_valid, channel_valid; simpl. repeat split; discriminate. }
  split; [|split].
  - destruct (Get_outcomes context) as [-> | [c ->]]; [done|].
    apply store_valid.
  - unfold current_color. by rewrite Apply_keeps_props.
  - destruct (Guard_outcomes context) as [-> | [c ->]]; [done|].
    apply store_valid.
Qed.

(** ** What Apply does to the mesh *)

Lemma Forall2_faces_map (R : BMLoop → BMLoop → Prop) (g : BMLoop → BMLoop) fs :
  (∀ l, R l (g l)) →
  Forall2 (λ f f', Forall2 R (loops f) (loops f'))
          fs (map (λ f, {| loops := map g (loops f) |}) fs).
Proof.
  intros Hg. induction fs as [|f fs IH]; simpl; constructor; [|done].
  simpl. induction (loops f) as [|l ls IHl]; simpl; constructor; auto.
Qed.

Lemma faces_map_map (g1 g2 : BMLoop → BMLoop) fs :
  map (λ f, {| loops := map g2 (loops f) |})
      (map (λ f, {| loops := map g1 (loops f) |}) fs) =
  map (λ f, {| loops := map (λ l, g2 (g1 l)) (loops f) |}) fs.
Proof.
  rewrite map_map. apply map_ext. intros f. simpl. by rewrite map_map.
Qed.

Lemma ensure_color_layer_verts bm :
  verts (fst (ensure_color_layer layer_fill bm)) = verts bm.
Proof.
  unfold ensure_color_layer. by destruct (loops_layers_color bm).
Qed.

Lemma ensure_color_layer_active bm :
  ∃ coll, loops_layers_color (fst (ensure_color_layer layer_fill bm)) = Some coll ∧
          active coll = snd (ensure_color_layer layer_fill bm) ∧
          (loops_layers_color bm = None → coll = {| active := "Col"; others := [] |}).
Proof.
  unfold ensure_color_layer.
  destruct (loops_layers_color bm) as [coll|] eqn:H; simpl.
  - exists coll. by rewrite H.
  - rewrite H. by eexists.
Qed.

Lemma ensure_color_layer_present bm :
  is_Some (loops_layers_color bm) →
  ensure_color_layer layer_fill bm = (bm, default "Col" (active <$> loops_layers_color bm)).
Proof.
  intros [coll H]. unfold ensure_color_layer. by rewrite H.
Qed.

Lemma loop_vert_select_verts bm1 bm2 l1 l2 :
  verts bm1 = verts bm2 → vert l1 = vert l2 →
  loop_vert_select bm1 l1 = loop_vert_select bm2 l2.
Proof. unfold loop_vert_select. by intros -> ->. Qed.

(** The operator on a context whose edit mesh is [bm], in one equation. *)
Lemma Apply_on_mesh context obj bm :
  active_object context = Some obj →
  edit_mesh (data obj) = Some bm →
  Apply context =
  let bm1 := fst (ensure_color_layer layer_fill bm) in
  let layer := snd (ensure_color_layer layer_fill bm) in
  match List.filter select (verts bm) with
  | [] => (NoSelection, with_bmesh context obj bm1)
  | _ :: _ =>
      (Returned FINISHED (INFO_applied (length (List.filter select (verts bm)))),
       with_bmesh context obj (write_selected bm1 layer (current_color context)))
  end.
Proof.
  intros Hobj Hbm.
  unfold MESH_OT_apply_vertex_color_execute, from_edit_mesh.
  rewrite Hobj, Hbm.
  pose proof (ensure_color_layer_verts bm) as Hv.
  destruct (ensure_color_layer layer_fill bm) as [bm1 layer]; simpl in *.
  rewrite Hv. reflexivity.
Qed.

(** C10.  After Apply has run on a mesh, the mesh has a colour layer,
    whether Apply succeeded or failed with NoSelection (which it does when
    no vertex is selected); on a mesh that had no layer the new collection
    consists of the single active layer "Col"; a Get that follows does not
    fail with NoColorData. *)
Theorem Apply_always_leaves_a_layer (context : Context) (bm : BMesh) :
  context_bmesh context = Some bm →
  ∃ bm' coll,
    context_bmesh (snd (Apply context)) = Some bm' ∧
    loops_layers_color bm' = Some coll ∧
    (loops_layers_color bm = None → coll = {| active := "Col"; others := [] |}) ∧
    (no_vertex_selected bm → fst (Apply context) = NoSelection) ∧
    fst (Get (snd (Apply context))) ≠ NoColorData.
Proof.
  intros H. apply context_bmesh_inv in H as (obj & Hobj & Hbm).
  rewrite (Apply_on_mesh _ _ _ Hobj Hbm).
  destruct (ensure_color_layer_active bm) as (coll & Hcoll & Hact & Hnew).
  destruct (List.filter select (verts bm)) as [|v vs] eqn:Hsel; simpl.
  - exists (fst (ensure_color_layer layer_fill bm)), coll.
    repeat split; [done | done |].
    unfold MESH_OT_get_vertex_color_execute; simpl. rewrite Hcoll.
    by destruct (first_selected_loop _).
  - exists (write_selected (fst (ensure_color_layer layer_fill bm))
                           (snd (ensure_color_layer layer_fill bm))
                           (current_color context)), coll.
    repeat split; [done | done | |].
    + intros Hno. apply no_vertex_selected_filter in Hno. congruence.
    + unfold MESH_OT_get_vertex_color_execute; simpl. rewrite Hcoll.
      by destruct (first_selected_loop _).
Qed.

Lemma write_selected_spec bm c :
  let bm1 := fst (ensure_color_layer layer_fill bm) in
  let layer := snd (ensure_color_layer layer_fill bm) in
  Forall2 (λ f f',
             Forall2 (corner_after_apply layer_fill bm layer c) (loops f) (loops f'))
          (faces bm) (faces (write_selected bm1 layer c)).
Proof.
  unfold ensure_color_layer, write_selected.
  destruct (loops_layers_color bm) as [coll|] eqn:Hcoll; simpl.
  - apply Forall2_faces_map. intros l. unfold corner_after_apply. rewrite Hcoll.
    destruct (loop_vert_select bm l) eqn:Hsel; simpl.
    + split; [done|]. split; [apply lookup_insert_eq|].
      intros n Hn. by apply lookup_insert_ne.
    + done.
  - rewrite faces_map_map. apply Forall2_faces_map. intros l.
    unfold corner_after_apply. rewrite Hcoll.
    rewrite (loop_vert_select_verts _ bm _ l) by done.
    destruct (loop_vert_select bm l) eqn:Hsel; simpl.
    + split; [done|]. split; [apply lookup_insert_eq|].
      intros n Hn. by rewrite !lookup_insert_ne.
    + done.
Qed.

(** C2, as the code has it.  On a mesh with at least one selected vertex
    Apply succeeds, keeps the vertices and the shape of the faces, and
    relates every corner to its image by [corner_after_apply]: a corner
    whose vertex is selected holds in the active layer the Current Color
    Value as the 8-bit layer stores it, which is the Current Color Value
    itself when that is an 8-bit colour; a corner whose vertex is not
    selected is as it was before, with the fill colour in the layer Apply
    had to create. *)
Theorem Apply_completeness (context : Context) (bm : BMesh) :
  context_bmesh context = Some bm →
  some_vertex_selected bm →
  ∃ bm' coll n,
    fst (Apply context) = Returned FINISHED (INFO_applied n) ∧
    context_bmesh (snd (Apply context)) = Some bm' ∧
    verts bm' = verts bm ∧
    loops_layers_color bm' = Some coll ∧
    Forall2 (λ f f',
               Forall2 (corner_after_apply layer_fill bm (active coll)
                          (current_color context))
                       (loops f) (loops f'))
            (faces bm) (faces bm') ∧
    (color_8bit (current_color context) →
     layer_store (current_color context) = current_color context).
Proof.
  intros H Hsel. apply context_bmesh_inv in H as (obj & Hobj & Hbm).
  rewrite (Apply_on_mesh _ _ _ Hobj Hbm).
  apply some_vertex_selected_filter in Hsel.
  destruct (List.filter select (verts bm)) as [|v vs] eqn:Hf; [done|]. simpl.
  destruct (ensure_color_layer_active bm) as (coll & Hcoll & Hact & _).
  exists (write_selected (fst (ensure_color_layer layer_fill bm))
                         (snd (ensure_color_layer layer_fill bm))
                         (current_color context)), coll, (S (length vs)).
  split; [done|]. split; [done|].
  split; [apply ensure_color_layer_verts|]. split; [done|].
  split; [|apply layer_store_id].
  rewrite Hact. apply write_selected_spec.
Qed.

(** C3, as the code has it.  With no vertex selected Apply fails with
    NoSelection and leaves the Current Color Value, the mode and the
    vertices alone.  On a mesh that already has a colour layer the whole
    context is returned unchanged.  On a mesh without one, the failing
    Apply has created the layer "Col": that is its only effect, every
    corner keeps its vertex and its data in all other layers. *)
Theorem Apply_empty_selection (context : Context) (bm : BMesh) :
  context_bmesh context = Some bm →
  no_vertex_selected bm →
  fst (Apply context) = NoSelection ∧
  scene (snd (Apply context)) = scene context ∧
  mode (snd (Apply context)) = mode context ∧
  (is_Some (loops_layers_color bm) → snd (Apply context) = context) ∧
  (loops_layers_color bm = None →
   ∃ bm', context_bmesh (snd (Apply context)) = Some bm' ∧
          verts bm' = verts bm ∧
          loops_layers_color bm' = Some {| active := "Col"; others := [] |} ∧
          Forall2 (λ f f',
                     Forall2 (λ l l', vert l' = vert l ∧
                                      layer_data l' = <["Col" := layer_fill]> (layer_data l))
                             (loops f) (loops f'))
                  (faces bm) (faces bm')).
Proof.
  intros H Hno. apply context_bmesh_inv in H as (obj & Hobj & Hbm).
  rewrite (Apply_on_mesh _ _ _ Hobj Hbm).
  rewrite (no_vertex_selected_filter _ Hno). simpl.
  repeat split.
  - intros Hsome. rewrite (ensure_color_layer_present _ Hsome). simpl.
    by apply with_bmesh_same.
  - intros Hnone. unfold ensure_color_layer. rewrite Hnone. simpl.
    eexists. split; [done|]. simpl. rewrite Hnone.
    repeat split. by apply Forall2_faces_map.
Qed.

Lemma Forall2_corners (R : BMLoop → BMLoop → Prop) fs fs' :
  Forall2 (λ f f', Forall2 R (loops f) (loops f')) fs fs' →
  Forall2 R (concat (map loops fs)) (concat (map loops fs')).
Proof.
  induction 1 as [|f f' fs fs' Hf _ IH]; simpl; [constructor|].
  by apply Forall2_app.
Qed.

Lemma selected_count_related bm bm' ls ls' :
  verts bm' = verts bm →
  Forall2 (λ l l', vert l' = vert l) ls ls' →
  length (List.filter (loop_vert_select bm') ls')
    = length (List.filter (loop_vert_select bm) ls).
Proof.
  intros Hv. induction 1 as [|l l' ls ls' Hl _ IH]; simpl; [done|].
  rewrite (loop_vert_select_verts bm' bm l' l) by done.
  destruct (loop_vert_select bm l); simpl; by rewrite IH.
Qed.

(** C8, as the code has it.  A successful Apply reports the number of
    selected vertices of the mesh, whether or not they have corners.  What
    it writes is something else: the corners of selected vertices, of
    which there are [corners_written], each holding the applied colour
    afterwards while every other corner keeps what the active layer held
    (the fill colour, in a layer Apply had to create).  On the mesh of two
    faces sharing one selected vertex the report says 1 while 2 corners
    are written. *)
Theorem Apply_reports_selected_vertices (context : Context) (bm : BMesh) :
  context_bmesh context = Some bm →
  some_vertex_selected bm →
  (∃ bm' coll,
     fst (Apply context) =
       Returned FINISHED (INFO_applied (length (List.filter select (verts bm)))) ∧
     context_bmesh (snd (Apply context)) = Some bm' ∧
     loops_layers_color bm' = Some coll ∧
     Forall2 (λ l l',
                if loop_vert_select bm l
                then layer_data l' !! active coll
                       = Some (layer_store (current_color context))
                else layer_data l' !! active coll
                       = match loops_layers_color bm with
                         | Some _ => layer_data l !! active coll
                         | None => Some layer_fill
                         end)
             (corners bm) (corners bm') ∧
     length (List.filter (loop_vert_select bm') (corners bm')) = corners_written bm ∧
     Forall (λ l', layer_data l' !! active coll
                     = Some (layer_store (current_color context)))
            (List.filter (loop_vert_select bm') (corners bm'))) ∧
  fst (Apply (editing shared_vertex_mesh (current_color context) false)) =
    Returned FINISHED (INFO_applied 1) ∧
  corners_written shared_vertex_mesh = 2%nat.
Proof.
  intros H Hsel. split; [|by split].
  apply context_bmesh_inv in H as (obj & Hobj & Hbm).
  rewrite (Apply_on_mesh _ _ _ Hobj Hbm).
  apply some_vertex_selected_filter in Hsel.
  destruct (List.filter select (verts bm)) as [|v vs] eqn:Hf; [done|]. simpl.
  destruct (ensure_color_layer_active bm) as (coll & Hcoll & Hact & _).
  pose proof (write_selected_spec bm (current_color context)) as Hspec.
  cbv zeta in Hspec. apply Forall2_corners in Hspec. fold (corners bm) in Hspec.
  set (bm' := write_selected _ _ _) in *. fold (corners bm') in Hspec.
  rewrite <- Hact in Hspec.
  assert (Hverts : verts bm' = verts bm) by apply ensure_color_layer_verts.
  exists bm', coll. split; [done|]. split; [done|]. split; [done|].
  split; [|split].
  - eapply Forall2_impl; [exact Hspec|]. intros l l' [_ Hl].
    destruct (loop_vert_select bm l); [by destruct Hl|].
    destruct (loops_layers_color bm); [by subst l'|].
    rewrite Hl. apply lookup_insert_eq.
  - unfold corners_written. apply selected_count_related; [done|].
    eapply Forall2_impl; [exact Hspec|]. by intros l l' [? _].
  - clear -Hspec Hverts. induction Hspec as [|l l' ls ls' [Hv Hl] _ IH]; simpl; [done|].
    rewrite (loop_vert_select_verts bm' bm l' l) by done.
    destruct (loop_vert_select bm l); [|done].
    constructor; [by destruct Hl | done].
Qed.

(** ** Get after Apply *)

Lemma first_selected_related (P : BMLoop → Prop) bm bm' ls ls' l :
  verts bm' = verts bm →
  Forall2 (λ l l', vert l' = vert l ∧ (loop_vert_select bm l = true → P l')) ls ls' →
  first_selected_in_loops bm ls = Some l →
  ∃ l', first_selected_in_loops bm' ls' = Some l' ∧ P l'.
Proof.
  intros Hv Hrel. induction Hrel as [|l0 l0' ls ls' [Hvert HP] _ IH]; simpl; [done|].
  rewrite (loop_vert_select_verts bm' bm l0' l0) by done.
  destruct (loop_vert_select bm l0) eqn:Hsel.
  - intros _. exists l0'. auto.
  - exact IH.
Qed.

Lemma corner_after_apply_selected bm layer c l l' :
  corner_after_apply layer_fill bm layer c l l' →
  vert l' = vert l ∧
  (loop_vert_select bm l = true → layer_data l' !! layer = Some (layer_store c)).
Proof.
  unfold corner_after_apply. intros [Hv H]. split; [done|].
  intros Hsel. rewrite Hsel in H. by destruct H.
Qed.


(** C5, as the code has it.  When some corner of the mesh belongs to a
    selected vertex, Apply succeeds and the Get that follows returns
    FINISHED, reports the Current Color Value C as the 8-bit layer holds it
    and makes that the Current Color Value.  When C is an 8-bit colour
    (every channel a multiple of 1/255 in [0, 1]) this is exactly C. *)
Theorem Apply_then_Get_round_trip (context : Context) (bm : BMesh) :
  context_bmesh context = Some bm →
  some_corner_selected bm →
  (∃ n, fst (Apply context) = Returned FINISHED (INFO_applied n)) ∧
  fst (Get (snd (Apply context)))
    = Returned FINISHED (INFO_got (layer_store (current_color context))) ∧
  current_color (snd (Get (snd (Apply context))))
    = layer_store (current_color context) ∧
  (color_8bit (current_color context) →
   fst (Get (snd (Apply context)))
     = Returned FINISHED (INFO_got (current_color context)) ∧
   current_color (snd (Get (snd (Apply context)))) = current_color context).
Proof.
  intros H Hsome.
  destruct (some_corner_selected_first _ Hsome) as (pre & l & post & Hsplit & Hpre & Hl).
  pose proof (selected_corner_selected_vertex _ _ Hl) as Hvsel.
  apply some_vertex_selected_filter in Hvsel.
  apply context_bmesh_inv in H as (obj & Hobj & Hbm).
  rewrite (Apply_on_mesh _ _ _ Hobj Hbm).
  destruct (List.filter select (verts bm)) as [|v vs] eqn:Hf; [done|]. simpl.
  split; [by eexists|].
  destruct (ensure_color_layer_active bm) as (coll & Hcoll & Hact & _).
  pose proof (write_selected_spec bm (current_color context)) as Hspec.
  simpl in Hspec. apply Forall2_corners in Hspec.
  set (bm2 := write_selected _ _ _) in *.
  assert (Hfirst : ∃ l', first_selected_loop bm2 = Some l' ∧
            layer_data l' !! snd (ensure_color_layer layer_fill bm)
              = Some (layer_store (current_color context))).
  { rewrite first_selected_loop_corners.
    eapply (first_selected_related _ bm bm2 (corners bm)).
    - apply ensure_color_layer_verts.
    - eapply Forall2_impl; [exact Hspec|].
      intros ? ?. apply corner_after_apply_selected.
    - rewrite Hsplit. by apply first_selected_in_loops_split. }
  destruct Hfirst as (l' & Hl' & Hdata).
  unfold MESH_OT_get_vertex_color_execute; simpl.
  change (loops_layers_color bm2) with
    (loops_layers_color (fst (ensure_color_layer layer_fill bm))).
  rewrite Hcoll, Hl'. unfold loop_getitem. rewrite Hact, Hdata. simpl.
  assert (Hcur : FloatVectorProperty_store vertex_color_decl
                   (layer_store (current_color context))
                 = layer_store (current_color context))
    by apply store_id, layer_store_valid.
  split; [done|]. split; [exact Hcur|].
  intros H8. unfold current_color at 3; simpl.
  rewrite Hcur, (layer_store_id _ H8). by split.
Qed.

(** ** The Guard *)

Lemma differs_false_within a b :
  differs_beyond_threshold a b = false ↔ within_threshold a b.
Proof.
  unfold differs_beyond_threshold, within_threshold.
  rewrite !orb_false_iff, !Qgt_bool_false. tauto.
Qed.

Lemma Guard_on_read context c :
  Guard_reads layer_fill context c →
  Guard context =
  if differs_beyond_threshold (current_color context) c
  then with_props context (set_vertex_color (vertex_color_props (scene context)) c)
  else context.
Proof.
  intros (obj & bm & coll & l & Hflag & Hmode & Hobj & Hty & Hbm & Hcoll & Hl & ->).
  unfold selection_update_handler, selection_update_try, from_edit_mesh, current_color.
  rewrite Hflag, Hobj, Hbm, Hcoll, Hl.
  rewrite (bool_decide_eq_true_2 _ Hmode), (bool_decide_eq_true_2 _ Hty). simpl.
  by destruct (differs_beyond_threshold _ _).
Qed.

Lemma Guard_cases context :
  Guard context = context ∨
  ∃ c, Guard_reads layer_fill context c ∧
       differs_beyond_threshold (current_color context) c = true ∧
       Guard context =
       with_props context (set_vertex_color (vertex_color_props (scene context)) c).
Proof.
  unfold selection_update_handler, selection_update_try, from_edit_mesh.
  destruct (auto_pick_color _) eqn:Hflag; [|by left]. simpl.
  destruct (bool_decide (mode context = "EDIT_MESH")) eqn:Hmode; [|by left]. simpl.
  destruct (active_object context) as [obj|] eqn:Hobj; [|by left].
  destruct (bool_decide (type obj = "MESH")) eqn:Hty; [|by left]. simpl.
  destruct (edit_mesh (data obj)) as [bm|] eqn:Hbm; [|by left].
  destruct (loops_layers_color bm) as [coll|] eqn:Hcoll; [|by left].
  destruct (first_selected_loop bm) as [l|] eqn:Hl; [|by left].
  destruct (differs_beyond_threshold _ _) eqn:Hd; [|by left].
  right. exists (loop_getitem layer_fill l (active coll)).
  split; [|by split].
  apply bool_decide_eq_true_1 in Hmode, Hty.
  by exists obj, bm, coll, l.
Qed.

Lemma Guard_reads_with_props context p c :
  Guard_reads layer_fill context c →
  Guard_reads layer_fill (with_props context (set_vertex_color p c)) c ↔
  auto_pick_color p = true.
Proof.
  intros (obj & bm & coll & l & Hflag & Hmode & Hobj & Hty & Hbm & Hcoll & Hl & Hc).
  split.
  - by intros (? & ? & ? & ? & Hflag' & _).
  - intros Hp. by exists obj, bm, coll, l.
Qed.

Lemma Guard_twice context : Guard (Guard context) = Guard context.
Proof.
  destruct (Guard_cases context) as [H | (c & Hread & Hd & H)].
  - by rewrite !H.
  - rewrite H.
    assert (Hread' : Guard_reads layer_fill
              (with_props context (set_vertex_color (vertex_color_props (scene context)) c)) c).
    { apply Guard_reads_with_props; [done|].
      by destruct Hread as (? & ? & ? & ? & Hflag & _). }
    rewrite (Guard_on_read _ _ Hread'). clear Hd.
    destruct (differs_beyond_threshold _ _); reflexivity.
Qed.

(** C1.  Once the Guard has run, running it again any number of times on
    the context it returned (same selection, same corner colours) returns
    that context: the Current Color Value is assigned a new value at most
    by the first invocation.  The mechanism: the Guard changes the Current
    Color Value only when some channel of the first matching corner's
    colour differs from it by more than 0.001; and after the first
    invocation a first matching corner whose colour is a valid RGBA colour
    agrees with the Current Color Value within 0.001 in every channel, so
    the test is false from then on. *)
Theorem Guard_idempotent (context : Context) :
  (∀ n, Nat.iter n Guard (Guard context) = Guard context) ∧
  (∀ c, Guard_reads layer_fill context c →
        (current_color (Guard context) ≠ current_color context →
         differs_beyond_threshold (current_color context) c = true) ∧
        (color_valid c →
         within_threshold (current_color (Guard context)) c ∧
         differs_beyond_threshold (current_color (Guard context)) c = false)).
Proof.
  split.
  - induction n as [|n IH]; simpl; [done|].
    rewrite IH. apply Guard_twice.
  - intros c Hread. rewrite (Guard_on_read _ _ Hread).
    destruct (differs_beyond_threshold (current_color context) c) eqn:Hd.
    + split; [done|]. intros Hc.
      unfold current_color; simpl. rewrite (store_id _ Hc).
      split; [apply differs_false_within|]; apply same_color_within_threshold.
    + split; [done|]. intros _.
      split; [by apply differs_false_within | done].
Qed.

End Claims.

(** * How the operations compose *)

Section Composition.

Variable layer_fill : Color.

Local Abbreviation Apply := (MESH_OT_apply_vertex_color_execute layer_fill).
Local Abbreviation Get := (MESH_OT_get_vertex_color_execute layer_fill).
Local Abbreviation Guard := (selection_update_handler layer_fill).

(** The three ways an operator call can go, by what the context offers. *)
Lemma context_cases context :
  active_object context = None ∨
  (∃ obj, active_object context = Some obj ∧ edit_mesh (data obj) = None) ∨
  (∃ obj bm, active_object context = Some obj ∧ edit_mesh (data obj) = Some bm).
Proof.
  destruct (active_object context) as [obj|]; [|by left].
  destruct (edit_mesh (data obj)) as [bm|] eqn:Hbm.
  - right; right. by exists obj, bm.
  - right; left. by exists obj.
Qed.

Lemma Get_on_mesh context obj bm :
  active_object context = Some obj →
  edit_mesh (data obj) = Some bm →
  Get context =
  match loops_layers_color bm with
  | None => (NoColorData, context)
  | Some coll =>
      match first_selected_loop bm with
      | Some l =>
          (Returned FINISHED (INFO_got (loop_getitem layer_fill l (active coll))),
           with_props context
             (set_vertex_color (vertex_color_props (scene context))
                (loop_getitem layer_fill l (active coll))))
      | None => (NoSelection, context)
      end
  end.
Proof.
  intros Hobj Hbm. unfold MESH_OT_get_vertex_color_execute, from_edit_mesh.
  by rewrite Hobj, Hbm.
Qed.

Lemma Get_no_object context :
  active_object context = None → Get context = (Raised AttributeError, context).
Proof.
  intros H. unfold MESH_OT_get_vertex_color_execute. by rewrite H.
Qed.

Lemma Get_no_edit_mesh context obj :
  active_object context = Some obj → edit_mesh (data obj) = None →
  Get context = (Raised ValueError, context).
Proof.
  intros H Hm. unfold MESH_OT_get_vertex_color_execute, from_edit_mesh.
  by rewrite H, Hm.
Qed.

Lemma Apply_no_object context :
  active_object context = None → Apply context = (Raised AttributeError, context).
Proof.
  intros H. unfold MESH_OT_apply_vertex_color_execute. by rewrite H.
Qed.

Lemma Apply_no_edit_mesh context obj :
  active_object context = Some obj → edit_mesh (data obj) = None →
  Apply context = (Raised ValueError, context).
Proof.
  intros H Hm. unfold MESH_OT_apply_vertex_color_execute, from_edit_mesh.
  by rewrite H, Hm.
Qed.

Lemma Get_again context : Get (snd (Get context)) = Get context.
Proof.
  destruct (context_cases context) as [H | [(obj & H & Hm) | (obj & bm & H & Hm)]].
  - rewrite (Get_no_object _ H). simpl. by apply Get_no_object.
  - rewrite (Get_no_edit_mesh _ _ H Hm). simpl. by eapply Get_no_edit_mesh.
  - rewrite (Get_on_mesh _ _ _ H Hm).
    destruct (loops_layers_color bm) as [coll|] eqn:Hcoll; simpl.
    + destruct (first_selected_loop bm) as [l|] eqn:Hl; simpl.
      * rewrite (Get_on_mesh _ obj bm) by done. by rewrite Hcoll, Hl.
      * rewrite (Get_on_mesh _ _ _ H Hm). by rewrite Hcoll, Hl.
    + rewrite (Get_on_mesh _ _ _ H Hm). by rewrite Hcoll.
Qed.

Lemma Get_on_read context c :
  Guard_reads layer_fill context c →
  Get context =
  (Returned FINISHED (INFO_got c),
   with_props context (set_vertex_color (vertex_color_props (scene context)) c)).
Proof.
  intros (obj & bm & coll & l & _ & _ & Hobj & _ & Hbm & Hcoll & Hl & ->).
  rewrite (Get_on_mesh _ _ _ Hobj Hbm). by rewrite Hcoll, Hl.
Qed.

(** X1.  Get is idempotent: a second Get on the context the first one
    returned gives the same outcome and the same context, and so does any
    number of further ones. *)
Theorem Get_idempotent (context : Context) :
  Get (snd (Get context)) = Get context ∧
  ∀ n, Nat.iter n (λ c, snd (Get c)) (snd (Get context)) = snd (Get context).
Proof.
  split; [apply Get_again|].
  induction n as [|n IH]; simpl; [done|].
  by rewrite IH, Get_again.
Qed.

(** X2.  Whatever the context, the Guard either returns it unchanged or
    does exactly what Get does.  When the Guard is active and reads colour
    [c] from the first matching corner, which of the two happens is decided
    by the threshold alone: within 0.001 in every channel the context stays
    (a difference of exactly 0.001 included), beyond it the Guard's result
    is Get's. *)
Theorem Guard_is_gated_Get (context : Context) :
  (Guard context = context ∨ Guard context = snd (Get context)) ∧
  ∀ c, Guard_reads layer_fill context c →
       fst (Get context) = Returned FINISHED (INFO_got c) ∧
       (within_threshold (current_color context) c → Guard context = context) ∧
       (¬ within_threshold (current_color context) c →
        Guard context = snd (Get context)).
Proof.
  split.
  - destruct (Guard_cases layer_fill context) as [H | (c & Hread & _ & H)]; [by left|].
    right. by rewrite H, (Get_on_read _ _ Hread).
  - intros c Hread. rewrite (Get_on_read _ _ Hread), (Guard_on_read _ _ _ Hread).
    split; [done|]. split.
    + intros Hin. apply differs_false_within in Hin. by rewrite Hin.
    + intros Hout.
      destruct (differs_beyond_threshold (current_color context) c) eqn:Hd; [done|].
      by apply differs_false_within in Hd.
Qed.

(** X3.  After a Get, whatever its outcome, the Guard has nothing left to
    do: it returns the context Get returned. *)
Theorem Guard_after_Get (context : Context) :
  Guard (snd (Get context)) = snd (Get context).
Proof.
  destruct (Guard_cases layer_fill (snd (Get context))) as [H | (c & Hread & _ & H)];
    [done|].
  rewrite H. pose proof (Get_on_read _ _ Hread) as Hget.
  rewrite Get_again in Hget.
  by rewrite Hget.
Qed.

(** ** Apply once more, and the Guard after Apply *)

Lemma write_selected_again bm layer c :
  write_selected (write_selected bm layer c) layer c = write_selected bm layer c.
Proof.
  unfold write_selected at 1. simpl.
  unfold write_selected. f_equal.
  rewrite faces_map_map. apply map_ext. intros f. f_equal.
  apply map_ext. intros l.
  match goal with
  | |- context [loop_vert_select ?b ?x] =>
      match b with
      | {| verts := _ |} =>
          replace (loop_vert_select b x) with (loop_vert_select bm l)
      end
  end.
  - destruct (loop_vert_select bm l); [|done].
    unfold loop_setitem; simpl. by rewrite insert_insert_eq.
  - apply loop_vert_select_verts; [done|].
    by destruct (loop_vert_select bm l).
Qed.

Lemma ensure_color_layer_again bm bmx :
  loops_layers_color bmx = loops_layers_color (fst (ensure_color_layer layer_fill bm)) →
  ensure_color_layer layer_fill bmx = (bmx, snd (ensure_color_layer layer_fill bm)).
Proof.
  destruct (ensure_color_layer_active layer_fill bm) as (coll & Hcoll & Hact & _).
  intros Hx. rewrite Hcoll in Hx. unfold ensure_color_layer at 1.
  by rewrite Hx, Hact.
Qed.


Lemma Apply_again context : Apply (snd (Apply context)) = Apply context.
Proof.
  destruct (context_cases context) as [H | [(obj & H & Hm) | (obj & bm & H & Hm)]].
  - rewrite (Apply_no_object _ H). simpl. by apply Apply_no_object.
  - rewrite (Apply_no_edit_mesh _ _ H Hm). simpl. by eapply Apply_no_edit_mesh.
  - rewrite (Apply_on_mesh layer_fill _ _ _ H Hm).
    pose proof (ensure_color_layer_verts layer_fill bm) as Hv.
    destruct (List.filter select (verts bm)) as [|v vs] eqn:Hf; simpl.
    + erewrite (Apply_on_mesh layer_fill); [|reflexivity|reflexivity].
      rewrite (ensure_color_layer_again bm) by done. simpl.
      by rewrite Hv, Hf.
    + erewrite (Apply_on_mesh layer_fill); [|reflexivity|reflexivity].
      rewrite (ensure_color_layer_again bm) by done. simpl.
      rewrite Hv, Hf.
      change (current_color (with_bmesh context obj ?b)) with (current_color context).
      by rewrite write_selected_again.
Qed.

(** X4.  Apply is idempotent: a second Apply on the context the first one
    returned gives the same outcome and writes nothing new, whether the
    first one succeeded, failed with NoSelection (after creating the
    layer) or raised. *)
Theorem Apply_idempotent (context : Context) :
  Apply (snd (Apply context)) = Apply context ∧
  ∀ n, Nat.iter n (λ c, snd (Apply c)) (snd (Apply context)) = snd (Apply context).
Proof.
  split; [apply Apply_again|].
  induction n as [|n IH]; simpl; [done|].
  by rewrite IH, Apply_again.
Qed.





(** ** What the operations never touch, and when they raise *)

(** X6.  The Guard and Get leave everything but the colour value alone:
    mode, active object (and with it the whole mesh) and the auto-pick flag
    are as before.  Apply leaves the scene, the mode and the type of the
    active object alone.  Hence [poll] has the same value after each of the
    three as before. *)
Theorem operations_touch_only_their_target (context : Context) :
  (mode (Guard context) = mode context ∧
   active_object (Guard context) = active_object context ∧
   auto_pick_color (vertex_color_props (scene (Guard context)))
     = auto_pick_color (vertex_color_props (scene context))) ∧
  (mode (snd (Get context)) = mode context ∧
   active_object (snd (Get context)) = active_object context ∧
   auto_pick_color (vertex_color_props (scene (snd (Get context))))
     = auto_pick_color (vertex_color_props (scene context))) ∧
  (mode (snd (Apply context)) = mode context ∧
   type <$> active_object (snd (Apply context)) = type <$> active_object context ∧
   scene (snd (Apply context)) = scene context) ∧
  poll (Guard context) = poll context ∧
  poll (snd (Get context)) = poll context ∧
  poll (snd (Apply context)) = poll context.
Proof.
  assert (HG : mode (Guard context) = mode context ∧
               active_object (Guard context) = active_object context ∧
               auto_pick_color (vertex_color_props (scene (Guard context)))
                 = auto_pick_color (vertex_color_props (scene context))).
  { by destruct (Guard_outcomes layer_fill context) as [-> | [c ->]]. }
  assert (HR : mode (snd (Get context)) = mode context ∧
               active_object (snd (Get context)) = active_object context ∧
               auto_pick_color (vertex_color_props (scene (snd (Get context))))
                 = auto_pick_color (vertex_color_props (scene context))).
  { by destruct (Get_outcomes layer_fill context) as [-> | [c ->]]. }
  assert (HA : mode (snd (Apply context)) = mode context ∧
               type <$> active_object (snd (Apply context))
                 = type <$> active_object context ∧
               scene (snd (Apply context)) = scene context).
  { destruct (context_cases context) as [H | [(obj & H & Hm) | (obj & bm & H & Hm)]].
    - by rewrite (Apply_no_object _ H).
    - by rewrite (Apply_no_edit_mesh _ _ H Hm).
    - rewrite (Apply_on_mesh layer_fill _ _ _ H Hm), H.
      by destruct (List.filter select (verts bm)). }
  split; [exact HG|]. split; [exact HR|]. split; [exact HA|].
  destruct HG as (HG1 & HG2 & _), HR as (HR1 & HR2 & _), HA as (HA1 & HA2 & _).
  unfold poll. rewrite HG1, HG2, HR1, HR2, HA1.
  repeat split.
  destruct (active_object (snd (Apply context))) as [o1|],
           (active_object context) as [o2|]; simpl in HA2; try done.
  by injection HA2 as ->.
Qed.

(** X7.  Apply and Get raise in exactly the same contexts and with the same
    exception, and a raising call returns the context it was given.
    AttributeError is raised exactly when there is no active object.
    Where [poll] holds, so that the active object is a mesh, the only
    exception is the ValueError of [bmesh.from_edit_mesh], raised exactly
    when the mesh has no edit mesh. *)
Theorem operators_raise_exactly_when (context : Context) (e : Exception) :
  (fst (Apply context) = Raised e ↔ fst (Get context) = Raised e) ∧
  (fst (Get context) = Raised e → snd (Get context) = context) ∧
  (fst (Apply context) = Raised e → snd (Apply context) = context) ∧
  (fst (Get context) = Raised AttributeError ↔ active_object context = None) ∧
  (poll context = true →
   (fst (Get context) = Raised e ↔ e = ValueError ∧ context_bmesh context = None)).
Proof.
  destruct (context_cases context) as [H | [(obj & H & Hm) | (obj & bm & H & Hm)]].
  - rewrite (Get_no_object _ H), (Apply_no_object _ H). simpl.
    split; [done|]. split; [done|]. split; [done|]. split; [done|].
    unfold poll. rewrite H, andb_false_r. done.
  - rewrite (Get_no_edit_mesh _ _ H Hm), (Apply_no_edit_mesh _ _ H Hm). simpl.
    unfold context_bmesh. rewrite H, Hm.
    split; [done|]. split; [done|]. split; [done|]. split; [done|].
    intros _. split; [by intros [= <-] | by intros [-> _]].
  - assert (HG : ∀ x, fst (Get context) ≠ Raised x).
    { intros x. rewrite (Get_on_mesh _ _ _ H Hm).
      destruct (loops_layers_color bm); [|done].
      by destruct (first_selected_loop bm). }
    assert (HA : ∀ x, fst (Apply context) ≠ Raised x).
    { intros x. rewrite (Apply_on_mesh layer_fill _ _ _ H Hm). simpl.
      by destruct (List.filter select (verts bm)). }
    unfold context_bmesh. rewrite H, Hm.
    split; [split; intros Hr; [by destruct (HA e) | by destruct (HG e)]|].
    split; [intros Hr; by destruct (HG e)|].
    split; [intros Hr; by destruct (HA e)|].
    split; [split; [intros Hr; by destruct (HG AttributeError) | done]|].
    intros _. split; [intros Hr; by destruct (HG e) | by intros [_ ?]].
Qed.

(** X8.  Whenever Get succeeds, Apply on the same context succeeds too and
    reports at least one vertex; and whenever Apply fails with NoSelection,
    Get on the same context fails as well (with NoSelection, or with
    NoColorData when the mesh had no layer). *)
Theorem Get_succeeds_only_where_Apply_does (context : Context) :
  (∀ c, fst (Get context) = Returned FINISHED (INFO_got c) →
        ∃ n, fst (Apply context) = Returned FINISHED (INFO_applied n) ∧ 1 ≤ n) ∧
  (fst (Apply context) = NoSelection →
   fst (Get context) = NoSelection ∨ fst (Get context) = NoColorData).
Proof.
  destruct (context_cases context) as [H | [(obj & H & Hm) | (obj & bm & H & Hm)]].
  - by rewrite (Get_no_object _ H), (Apply_no_object _ H).
  - by rewrite (Get_no_edit_mesh _ _ H Hm), (Apply_no_edit_mesh _ _ H Hm).
  - rewrite (Get_on_mesh _ _ _ H Hm), (Apply_on_mesh layer_fill _ _ _ H Hm).
    destruct (loops_layers_color bm) as [coll|]; [|split; [done | by right]].
    destruct (first_selected_loop bm) as [l|] eqn:Hl; [|split; [done | by left]].
    rewrite first_selected_loop_corners in Hl.
    apply first_selected_in_loops_Some in Hl as (pre & post & _ & _ & Hsel).
    apply selected_corner_selected_vertex, some_vertex_selected_filter in Hsel.
    destruct (List.filter select (verts bm)) as [|v vs]; [done|]. simpl.
    split; [|done]. intros c _. exists (S (length vs)). split; [done | lia].
Qed.

(** ** Get after Apply does not depend on the enumeration order *)

Lemma written_selected_corners bm c :
  Forall (λ l, loop_vert_select bm l = true →
               layer_data l !! snd (ensure_color_layer layer_fill bm)
                 = Some (layer_store c))
         (corners (write_selected (fst (ensure_color_layer layer_fill bm))
                                  (snd (ensure_color_layer layer_fill bm)) c)).
Proof.
  pose proof (write_selected_spec layer_fill bm c) as Hspec. cbv zeta in Hspec.
  apply Forall2_corners in Hspec. unfold corners.
  induction Hspec as [|l l' ls ls' Hl _ IH]; constructor; [|exact IH].
  apply (corner_after_apply_selected layer_fill) in Hl as [Hv Hl].
  intros Hsel. apply Hl.
  by rewrite <- (loop_vert_select_verts bm bm l' l).
Qed.

(** X9.  After a successful Apply every corner of a selected vertex holds
    the same colour, the applied one as the 8-bit layer stores it, so the
    order in which Get meets the corners no longer matters: on any mesh
    with the same vertices and layers whose corners are a rearrangement of
    the corners Apply left, Get reports that colour as soon as some corner
    is selected. *)
Theorem Get_after_Apply_any_order
    (context : Context) (bm' bm'' : BMesh) (obj : Object) (n : nat) :
  fst (Apply context) = Returned FINISHED (INFO_applied n) →
  context_bmesh (snd (Apply context)) = Some bm' →
  verts bm'' = verts bm' →
  loops_layers_color bm'' = loops_layers_color bm' →
  corners bm'' ≡ₚ corners bm' →
  some_corner_selected bm'' →
  fst (Get (with_bmesh (snd (Apply context)) obj bm''))
    = Returned FINISHED (INFO_got (layer_store (current_color context))).
Proof.
  intros Hfin Hbm' Hverts Hlayers Hperm Hsome.
  destruct (context_cases context) as [H | [(obj0 & H & Hm) | (obj0 & bm & H & Hm)]].
  - by rewrite (Apply_no_object _ H) in Hfin.
  - by rewrite (Apply_no_edit_mesh _ _ H Hm) in Hfin.
  - rewrite (Apply_on_mesh layer_fill _ _ _ H Hm) in Hfin, Hbm'.
    destruct (List.filter select (verts bm)) as [|v vs]; [done|].
    simpl in Hbm'. injection Hbm' as <-. clear Hfin.
    destruct (ensure_color_layer_active layer_fill bm) as (coll & Hcoll & Hact & _).
    simpl in Hlayers. rewrite Hcoll in Hlayers.
    pose proof (written_selected_corners bm (current_color context)) as Hall.
    rewrite <- Hperm in Hall.
    apply some_corner_selected_first in Hsome
      as (pre & l & post & Hsplit & Hpre & Hl).
    erewrite Get_on_mesh; [|reflexivity|reflexivity].
    rewrite Hlayers, first_selected_loop_corners, Hsplit.
    rewrite (first_selected_in_loops_split _ _ _ _ Hpre Hl). simpl.
    rewrite Hsplit in Hall. apply Forall_app in Hall as [_ Hall].
    apply Forall_cons in Hall as [Hc _].
    unfold loop_getitem. rewrite Hact, Hc; [done|].
    rewrite <- Hl. apply loop_vert_select_verts; [|done].
    rewrite Hverts. simpl. symmetry. apply ensure_color_layer_verts.
Qed.

(** ** Sessions *)

Lemma perform_frame context op :
  auto_pick_color (vertex_color_props (scene (perform layer_fill context op)))
    = auto_pick_color (vertex_color_props (scene context)) ∧
  (color_valid (current_color context) →
   color_valid (current_color (perform layer_fill context op))).
Proof.
  destruct op; simpl.
  - destruct (Get_outcomes layer_fill context) as [-> | [c ->]]; [done|].
    split; [done|]. intros _. apply store_valid.
  - unfold current_color. by rewrite Apply_keeps_props.
  - destruct (Guard_outcomes layer_fill context) as [-> | [c ->]]; [done|].
    split; [done|]. intros _. apply store_valid.
Qed.

(** X17.  Over a whole session, any sequence of Get, Apply and handler
    calls: the auto-pick flag is never changed by the add-on itself, the
    Current Color Value stays a valid colour if it was one, and while the
    flag is off the handler calls contribute nothing, the session ends in
    the same context as the one with the handler calls left out.  In
    particular this holds from the defaults of a fresh property group,
    where the flag is off and the colour is white. *)
Theorem session_invariant (ops : list Operation) (context : Context) :
  auto_pick_color (vertex_color_props (scene (session layer_fill ops context)))
    = auto_pick_color (vertex_color_props (scene context)) ∧
  (color_valid (current_color context) →
   color_valid (current_color (session layer_fill ops context))) ∧
  (auto_pick_color (vertex_color_props (scene context)) = false →
   session layer_fill ops context
     = session layer_fill (List.filter (λ op, negb (is_update op)) ops) context) ∧
  (vertex_color_props (scene context) = VertexColorProperties_init →
   color_valid (current_color (session layer_fill ops context)) ∧
   auto_pick_color (vertex_color_props (scene (session layer_fill ops context))) = false).
Proof.
  assert (Hflag : ∀ ops c,
    auto_pick_color (vertex_color_props (scene (session layer_fill ops c)))
      = auto_pick_color (vertex_color_props (scene c))).
  { clear. intros ops. induction ops as [|op ops IH]; intros c; [done|].
    unfold session in *. simpl. rewrite IH. apply perform_frame. }
  assert (Hvalid : ∀ ops c, color_valid (current_color c) →
    color_valid (current_color (session layer_fill ops c))).
  { clear. intros ops. induction ops as [|op ops IH]; intros c Hc; [done|].
    unfold session in *. simpl. apply IH. by apply perform_frame. }
  split; [apply Hflag|]. split; [apply Hvalid|]. split.
  - revert context. induction ops as [|op ops IH]; intros c Hoff; [done|].
    unfold session in *. simpl.
    destruct op; simpl.
    + apply IH. rewrite <- Hoff. exact (proj1 (perform_frame c PressGet)).
    + apply IH. rewrite <- Hoff. exact (proj1 (perform_frame c PressApply)).
    + unfold selection_update_handler at 1. rewrite Hoff. simpl. by apply IH.
  - intros Hinit. split.
    + apply Hvalid. unfold current_color. rewrite Hinit.
      unfold color_valid, channel_valid; simpl. repeat split; discriminate.
    + rewrite Hflag. by rewrite Hinit.
Qed.

End Composition.

(** * Registration and its undoing *)

Lemma list_remove_absent x l : x ∉ l → list_remove x l = None.
Proof.
  induction l as [|y l IH]; simpl; [done|].
  intros [Hne Hx]%not_elem_of_cons.
  rewrite decide_False by done. by rewrite IH.
Qed.

Lemma list_remove_present x l : x ∈ l → is_Some (list_remove x l).
Proof.
  induction l as [|y l IH]; simpl; [by intros ?%elem_of_nil|].
  intros Hin. destruct (decide (y = x)) as [->|Hne]; [by eexists|].
  apply elem_of_cons in Hin as [->|Hin]; [done|].
  destruct (IH Hin) as [l' ->]. by eexists.
Qed.

Lemma list_remove_app_new x l : x ∉ l → list_remove x (l ++ [x]) = Some l.
Proof.
  induction l as [|y l IH]; simpl; intros Hx.
  - by rewrite decide_True.
  - apply not_elem_of_cons in Hx as [Hne Hx].
    rewrite decide_False by done. by rewrite IH.
Qed.

(** Removing [x] leaves every other entry in place and in order, and takes
    away exactly one entry. *)
Lemma list_remove_others x l l' :
  list_remove x l = Some l' →
  filter (λ y, y ≠ x) l' = filter (λ y, y ≠ x) l ∧ S (length l') = length l.
Proof.
  revert l'. induction l as [|y l IH]; simpl; [done|]. intros l'.
  destruct (decide (y = x)) as [->|Hne].
  - intros [= <-]. split; [|done]. by rewrite filter_cons_False by (by intros ?).
  - destruct (list_remove x l) as [l0|]; simpl; [|done].
    intros [= <-]. destruct (IH l0 eq_refl) as [Hf Hlen].
    split; [|simpl; lia]. by rewrite !filter_cons_True, Hf by done.
Qed.

Lemma default_list_remove_others x l :
  filter (λ y, y ≠ x) (default l (list_remove x l)) = filter (λ y, y ≠ x) l.
Proof.
  destruct (list_remove x l) as [l'|] eqn:H; simpl; [|done].
  by apply list_remove_others in H as [? _].
Qed.

Lemma register_class_step cls h :
  register_class cls h =
  if decide (cls ∈ registered_classes h)
  then (inl (AlreadyRegistered cls), h)
  else (inr (),
        {| registered_classes := {[cls]} ∪ registered_classes h;
           Scene_properties := Scene_properties h;
           VIEW3D_MT_edit_mesh_context_menu := VIEW3D_MT_edit_mesh_context_menu h;
           depsgraph_update_post := depsgraph_update_post h |}).
Proof. reflexivity. Qed.

Lemma unregister_class_step cls h :
  unregister_class cls h =
  if decide (cls ∈ registered_classes h)
  then (inr (),
        {| registered_classes := registered_classes h ∖ {[cls]};
           Scene_properties := Scene_properties h;
           VIEW3D_MT_edit_mesh_context_menu := VIEW3D_MT_edit_mesh_context_menu h;
           depsgraph_update_post := depsgraph_update_post h |})
  else (inl (NotRegistered cls), h).
Proof. reflexivity. Qed.

(** The class loops change nothing but the set of registered classes. *)
Lemma register_classes_run cs h :
  ∃ S, snd (for_each cs register_class h) =
       {| registered_classes := S;
          Scene_properties := Scene_properties h;
          VIEW3D_MT_edit_mesh_context_menu := VIEW3D_MT_edit_mesh_context_menu h;
          depsgraph_update_post := depsgraph_update_post h |} ∧
       (∀ c, c ∉ cs → (c ∈ S ↔ c ∈ registered_classes h)) ∧
       (fst (for_each cs register_class h) = inr () →
        S = list_to_set cs ∪ registered_classes h) ∧
       (∀ e, fst (for_each cs register_class h) = inl e →
             ∃ c, c ∈ cs ∧ e = AlreadyRegistered c).
Proof.
  revert h. induction cs as [|c cs IH]; intros h.
  - exists (registered_classes h). destruct h; simpl.
    split; [done|]. split; [done|]. split; [|done]. intros _.
    apply set_eq. intros x. rewrite elem_of_union.
    split; [by right | by intros [?%elem_of_empty|?]].
  - simpl. unfold mbind, script_bind. rewrite register_class_step.
    destruct (decide (c ∈ registered_classes h)) as [Hin|Hnin].
    + exists (registered_classes h). destruct h; simpl.
      split; [done|]. split; [done|]. split; [done|].
      intros e [= <-]. exists c. split; [left | done].
    + destruct (IH {| registered_classes := {[c]} ∪ registered_classes h;
                      Scene_properties := Scene_properties h;
                      VIEW3D_MT_edit_mesh_context_menu :=
                        VIEW3D_MT_edit_mesh_context_menu h;
                      depsgraph_update_post := depsgraph_update_post h |})
        as (S & HS & Hframe & Hok & Herr).
      simpl in *. exists S.
      destruct (for_each cs register_class _) as [[e|[]] h'] eqn:Hrun; simpl in *.
      * split; [done|]. split; [|split; [done|]].
        -- intros c' [Hne Hc']%not_elem_of_cons. rewrite (Hframe c' Hc').
           rewrite elem_of_union, elem_of_singleton. tauto.
        -- intros e' [= <-]. destruct (Herr e eq_refl) as (c' & Hc' & ->).
           exists c'. split; [by right | done].
      * split; [done|]. split; [|split; [|done]].
        -- intros c' [Hne Hc']%not_elem_of_cons. rewrite (Hframe c' Hc').
           rewrite elem_of_union, elem_of_singleton. tauto.
        -- intros _. rewrite (Hok eq_refl).
           apply set_eq. intros x.
           rewrite !elem_of_union. tauto.
Qed.

Lemma unregister_classes_run cs h :
  ∃ S, snd (for_each cs unregister_class h) =
       {| registered_classes := S;
          Scene_properties := Scene_properties h;
          VIEW3D_MT_edit_mesh_context_menu := VIEW3D_MT_edit_mesh_context_menu h;
          depsgraph_update_post := depsgraph_update_post h |} ∧
       (∀ c, c ∉ cs → (c ∈ S ↔ c ∈ registered_classes h)) ∧
       (fst (for_each cs unregister_class h) = inr () →
        S = registered_classes h ∖ list_to_set cs) ∧
       (∀ e, fst (for_each cs unregister_class h) = inl e →
             ∃ c, c ∈ cs ∧ e = NotRegistered c).
Proof.
  revert h. induction cs as [|c cs IH]; intros h.
  - exists (registered_classes h). destruct h; simpl.
    split; [done|]. split; [done|]. split; [|done]. intros _.
    apply set_eq. intros x. rewrite elem_of_difference.
    split; [|by intros [? _]]. intros Hx. split; [done|]. by intros ?%elem_of_empty.
  - simpl. unfold mbind, script_bind. rewrite unregister_class_step.
    destruct (decide (c ∈ registered_classes h)) as [Hin|Hnin].
    + destruct (IH {| registered_classes := registered_classes h ∖ {[c]};
                      Scene_properties := Scene_properties h;
                      VIEW3D_MT_edit_mesh_context_menu :=
                        VIEW3D_MT_edit_mesh_context_menu h;
                      depsgraph_update_post := depsgraph_update_post h |})
        as (S & HS & Hframe & Hok & Herr).
      simpl in *. exists S.
      destruct (for_each cs unregister_class _) as [[e|[]] h'] eqn:Hrun; simpl in *.
      * split; [done|]. split; [|split; [done|]].
        -- intros c' [Hne Hc']%not_elem_of_cons. rewrite (Hframe c' Hc').
           rewrite elem_of_difference, elem_of_singleton. tauto.
        -- intros e' [= <-]. destruct (Herr e eq_refl) as (c' & Hc' & ->).
           exists c'. split; [by right | done].
      * split; [done|]. split; [|split; [|done]].
        -- intros c' [Hne Hc']%not_elem_of_cons. rewrite (Hframe c' Hc').
           rewrite elem_of_difference, elem_of_singleton. tauto.
        -- intros _. rewrite (Hok eq_refl).
           apply set_eq. intros x.
           rewrite !elem_of_difference, elem_of_union. tauto.
    + exists (registered_classes h). destruct h; simpl.
      split; [done|]. split; [done|]. split; [done|].
      intros e [= <-]. exists c. split; [left | done].
Qed.

(** [register] in one equation: the class loop, then the three
    subscriptions, of which only the handler's is guarded. *)
Lemma register_unfold h :
  register h =
  match for_each classes register_class h with
  | (inl e, h') => (inl e, h')
  | (inr _, h') =>
      (inr (),
       {| registered_classes := registered_classes h';
          Scene_properties :=
            <["vertex_color_props" := "VertexColorProperties"]> (Scene_properties h');
          VIEW3D_MT_edit_mesh_context_menu :=
            VIEW3D_MT_edit_mesh_context_menu h' ++ ["draw_vertex_color_menu"];
          depsgraph_update_post :=
            if bool_decide ("selection_update_handler" ∈ depsgraph_update_post h')
            then depsgraph_update_post h'
            else depsgraph_update_post h' ++ ["selection_update_handler"] |})
  end.
Proof.
  unfold register, mbind, script_bind.
  destruct (for_each classes register_class h) as [[e|[]] h']; [done|].
  unfold Scene_set_property, menu_append, handlers_contain; simpl.
  destruct (bool_decide _); reflexivity.
Qed.

(** [unregister] in one equation: thanks to the membership test the
    handler removal cannot raise, and the menu ignores a missing entry. *)
Lemma unregister_unfold h :
  unregister h =
  let menu := default (VIEW3D_MT_edit_mesh_context_menu h)
                (list_remove "draw_vertex_color_menu" (VIEW3D_MT_edit_mesh_context_menu h)) in
  let handlers := default (depsgraph_update_post h)
                    (list_remove "selection_update_handler" (depsgraph_update_post h)) in
  match Scene_properties h !! "vertex_color_props" with
  | None =>
      (inl (NoAttribute "vertex_color_props"),
       {| registered_classes := registered_classes h;
          Scene_properties := Scene_properties h;
          VIEW3D_MT_edit_mesh_context_menu := menu;
          depsgraph_update_post := handlers |})
  | Some _ =>
      for_each (rev classes) unregister_class
       {| registered_classes := registered_classes h;
          Scene_properties := delete "vertex_color_props" (Scene_properties h);
          VIEW3D_MT_edit_mesh_context_menu := menu;
          depsgraph_update_post := handlers |}
  end.
Proof.
  unfold unregister, mbind, script_bind, handlers_contain.
  destruct (bool_decide ("selection_update_handler" ∈ depsgraph_update_post h)) eqn:Hb.
  - apply bool_decide_eq_true_1, list_remove_present in Hb as [l Hl].
    unfold handlers_remove. rewrite Hl. simpl.
    unfold Scene_del_property; simpl.
    by destruct (Scene_properties h !! "vertex_color_props").
  - apply bool_decide_eq_false_1, list_remove_absent in Hb.
    rewrite Hb. unfold mret, script_ret; simpl.
    unfold Scene_del_property; simpl.
    destruct (Scene_properties h !! "vertex_color_props"); [|done].
    by destruct h.
Qed.

Lemma classes_registered_after h h' :
  for_each classes register_class h = (inr (), h') →
  registered_classes h' = list_to_set classes ∪ registered_classes h ∧
  Scene_properties h' = Scene_properties h ∧
  VIEW3D_MT_edit_mesh_context_menu h' = VIEW3D_MT_edit_mesh_context_menu h ∧
  depsgraph_update_post h' = depsgraph_update_post h.
Proof.
  intros Hrun.
  destruct (register_classes_run classes h) as (S & HS & _ & Hok & _).
  rewrite Hrun in HS, Hok. simpl in HS, Hok. subst h'. simpl.
  by rewrite (Hok eq_refl).
Qed.

Lemma elem_of_rev_classes c : c ∈ rev classes ↔ c ∈ classes.
Proof. rewrite !list_elem_of_In. symmetry. apply in_rev. Qed.

Lemma classes_NoDup : NoDup classes.
Proof. apply (bool_decide_unpack _). by vm_compute. Qed.

Lemma register_classes_fresh cs h :
  NoDup cs →
  (∀ c, c ∈ cs → c ∉ registered_classes h) →
  fst (for_each cs register_class h) = inr ().
Proof.
  intros Hnd. revert h. induction Hnd as [|c cs Hc _ IH]; intros h Hfresh; [done|].
  simpl. unfold mbind, script_bind. rewrite register_class_step.
  rewrite decide_False by (apply Hfresh; left).
  specialize (IH {| registered_classes := {[c]} ∪ registered_classes h;
                    Scene_properties := Scene_properties h;
                    VIEW3D_MT_edit_mesh_context_menu :=
                      VIEW3D_MT_edit_mesh_context_menu h;
                    depsgraph_update_post := depsgraph_update_post h |}).
  destruct (for_each cs register_class _) as [[e|[]] h'].
  - apply IH. simpl. intros c' Hc' [->%elem_of_singleton|Hin]%elem_of_union; [done|].
    by apply (Hfresh c'); [right|].
  - done.
Qed.

Lemma unregister_classes_present cs h :
  NoDup cs →
  (∀ c, c ∈ cs → c ∈ registered_classes h) →
  fst (for_each cs unregister_class h) = inr ().
Proof.
  intros Hnd. revert h. induction Hnd as [|c cs Hc _ IH]; intros h Hall; [done|].
  simpl. unfold mbind, script_bind. rewrite unregister_class_step.
  rewrite decide_True by (apply Hall; left).
  specialize (IH {| registered_classes := registered_classes h ∖ {[c]};
                    Scene_properties := Scene_properties h;
                    VIEW3D_MT_edit_mesh_context_menu :=
                      VIEW3D_MT_edit_mesh_context_menu h;
                    depsgraph_update_post := depsgraph_update_post h |}).
  destruct (for_each cs unregister_class _) as [[e|[]] h'].
  - apply IH. simpl. intros c' Hc'. apply elem_of_difference.
    split; [apply Hall; by right|]. intros ->%elem_of_singleton. done.
  - done.
Qed.

(** X10.  Registering and then unregistering on a host where nothing of the
    add-on is present succeeds twice and gives back exactly the host that
    was there: the classes, menu entries, handlers and scene properties of
    others are where they were, and nothing of the add-on is left. *)
Theorem unregister_undoes_register (h : Bpy) :
  addon_absent h →
  fst (register h) = inr () ∧
  unregister (snd (register h)) = (inr (), h).
Proof.
  intros (Hc & Hs & Hm & Hh).
  pose proof (register_classes_fresh classes h classes_NoDup Hc) as Hok.
  rewrite register_unfold.
  destruct (for_each classes register_class h) as [[e|[]] h1] eqn:Hrun; [done|].
  apply classes_registered_after in Hrun as (Hcl & Hsp & Hmenu & Hhd).
  split; [done|].
  cbn [fst snd]. rewrite Hhd, (bool_decide_eq_false_2 _ Hh), Hmenu, Hsp.
  rewrite unregister_unfold.
  cbn [Scene_properties VIEW3D_MT_edit_mesh_context_menu depsgraph_update_post
       registered_classes].
  rewrite lookup_insert_eq, (list_remove_app_new _ _ Hm), (list_remove_app_new _ _ Hh).
  cbn [default from_option id]. rewrite (delete_insert_id _ _ _ Hs).
  set (h2 := {| registered_classes := registered_classes h1;
                Scene_properties := Scene_properties h;
                VIEW3D_MT_edit_mesh_context_menu := VIEW3D_MT_edit_mesh_context_menu h;
                depsgraph_update_post := depsgraph_update_post h |}).
  assert (Hall : fst (for_each (rev classes) unregister_class h2) = inr ()).
  { apply unregister_classes_present.
    - apply NoDup_ListNoDup, List.NoDup_rev, NoDup_ListNoDup, classes_NoDup.
    - intros c Hcin. unfold h2. cbn [registered_classes].
      rewrite Hcl. apply elem_of_union. left.
      by apply elem_of_list_to_set, elem_of_rev_classes. }
  destruct (unregister_classes_run (rev classes) h2) as (S & HS & _ & HSok & _).
  destruct (for_each (rev classes) unregister_class h2) as [[e|[]] h3];
    cbn [fst snd] in *; [done|].
  subst h3. rewrite (HSok eq_refl). unfold h2. cbn [registered_classes].
  rewrite Hcl. destruct h as [cl sp menu hd].
  cbn [registered_classes Scene_properties VIEW3D_MT_edit_mesh_context_menu
       depsgraph_update_post] in *.
  do 2 f_equal. apply set_eq. intros x.
  rewrite elem_of_difference, elem_of_union, !elem_of_list_to_set.
  rewrite elem_of_rev_classes. split; [tauto|].
  intros Hx. split; [by right|]. intros Hx'. by apply (Hc x).
Qed.

Lemma register_classes_success cs h :
  fst (for_each cs register_class h) = inr () →
  ∀ c, c ∈ cs → c ∉ registered_classes h.
Proof.
  revert h. induction cs as [|c cs IH]; intros h; [by intros _ c ?%elem_of_nil|].
  simpl. unfold mbind, script_bind. rewrite register_class_step.
  destruct (decide (c ∈ registered_classes h)) as [Hin|Hnin]; [done|].
  specialize (IH {| registered_classes := {[c]} ∪ registered_classes h;
                    Scene_properties := Scene_properties h;
                    VIEW3D_MT_edit_mesh_context_menu :=
                      VIEW3D_MT_edit_mesh_context_menu h;
                    depsgraph_update_post := depsgraph_update_post h |}).
  destruct (for_each cs register_class _) as [[e|[]] h']; [done|].
  intros _ c' [->|Hc']%elem_of_cons; [done|].
  specialize (IH eq_refl c' Hc'). simpl in IH.
  intros Hin. apply IH, elem_of_union. by right.
Qed.

Lemma unregister_classes_success cs h :
  fst (for_each cs unregister_class h) = inr () →
  ∀ c, c ∈ cs → c ∈ registered_classes h.
Proof.
  revert h. induction cs as [|c cs IH]; intros h; [by intros _ c ?%elem_of_nil|].
  simpl. unfold mbind, script_bind. rewrite unregister_class_step.
  destruct (decide (c ∈ registered_classes h)) as [Hin|Hnin]; [|done].
  specialize (IH {| registered_classes := registered_classes h ∖ {[c]};
                    Scene_properties := Scene_properties h;
                    VIEW3D_MT_edit_mesh_context_menu :=
                      VIEW3D_MT_edit_mesh_context_menu h;
                    depsgraph_update_post := depsgraph_update_post h |}).
  destruct (for_each cs unregister_class _) as [[e|[]] h']; [done|].
  intros _ c' [->|Hc']%elem_of_cons; [done|].
  specialize (IH eq_refl c' Hc'). simpl in IH.
  by apply elem_of_difference in IH as [? _].
Qed.

(** X11.  [register] subscribes the handler at most once: when the handler
    is already in the host's list the list is left as it is, otherwise the
    handler is appended at its end; after a successful [register] the
    handler is in the list.  The menu entry has no such test: every
    successful [register] appends it. *)
Theorem register_subscribes_handler_once (h : Bpy) :
  (depsgraph_update_post (snd (register h)) = depsgraph_update_post h ∨
   (("selection_update_handler" ∉ depsgraph_update_post h) ∧
    depsgraph_update_post (snd (register h))
      = depsgraph_update_post h ++ ["selection_update_handler"])) ∧
  (fst (register h) = inr () →
   "selection_update_handler" ∈ depsgraph_update_post (snd (register h)) ∧
   ("selection_update_handler" ∈ depsgraph_update_post h →
    depsgraph_update_post (snd (register h)) = depsgraph_update_post h) ∧
   VIEW3D_MT_edit_mesh_context_menu (snd (register h))
     = VIEW3D_MT_edit_mesh_context_menu h ++ ["draw_vertex_color_menu"]).
Proof.
  rewrite register_unfold.
  destruct (register_classes_run classes h) as (S & HS & _).
  destruct (for_each classes register_class h) as [[e|[]] h1]; simpl in *.
  - subst h1. split; [by left | done].
  - subst h1. simpl.
    destruct (bool_decide ("selection_update_handler" ∈ depsgraph_update_post h)) eqn:Hb.
    + apply bool_decide_eq_true_1 in Hb. split; [by left|]. by intros _.
    + apply bool_decide_eq_false_1 in Hb. split; [by right|]. intros _.
      split; [|split; [done|done]].
      apply elem_of_app. right. by left.
Qed.

(** X12.  [register] succeeds exactly when none of the add-on's classes is
    registered yet.  When it fails, the error names one of the add-on's
    classes as already registered, and nothing has been subscribed: scene
    properties, menu and handlers are as before. *)
Theorem register_succeeds_iff_classes_free (h : Bpy) :
  (fst (register h) = inr () ↔ ∀ c, c ∈ classes → c ∉ registered_classes h) ∧
  (∀ e, fst (register h) = inl e →
        (∃ c, c ∈ classes ∧ e = AlreadyRegistered c) ∧
        Scene_properties (snd (register h)) = Scene_properties h ∧
        VIEW3D_MT_edit_mesh_context_menu (snd (register h))
          = VIEW3D_MT_edit_mesh_context_menu h ∧
        depsgraph_update_post (snd (register h)) = depsgraph_update_post h).
Proof.
  rewrite register_unfold.
  destruct (register_classes_run classes h) as (S & HS & _ & _ & Herr).
  pose proof (register_classes_success classes h) as Hsucc.
  pose proof (register_classes_fresh classes h classes_NoDup) as Hfresh.
  destruct (for_each classes register_class h) as [[e|[]] h1]; simpl in *.
  - subst h1. split.
    + split; [done|]. intros Hc. by specialize (Hfresh Hc).
    + intros e' [= <-]. split; [by apply Herr | done].
  - split; [|done]. split; [intros _; by apply Hsucc | done].
Qed.

(** X13.  A second [register] right after a successful one raises on the
    first class and leaves the host exactly as the first one left it, so
    activating twice can duplicate neither the menu entry nor the
    handler. *)
Theorem register_twice_changes_nothing (h : Bpy) :
  fst (register h) = inr () →
  register (snd (register h))
    = (inl (AlreadyRegistered "VertexColorProperties"), snd (register h)).
Proof.
  rewrite (register_unfold h).
  destruct (for_each classes register_class h) as [[e|[]] h1] eqn:Hrun; [done|].
  intros _. simpl.
  apply classes_registered_after in Hrun as (Hcl & _).
  rewrite register_unfold. unfold classes at 1. simpl.
  unfold mbind, script_bind. rewrite register_class_step. simpl.
  rewrite decide_True; [done|].
  rewrite Hcl. apply elem_of_union. left.
  apply elem_of_list_to_set. unfold classes. left.
Qed.

(** X14.  [unregister] on a host that has neither the scene property, nor
    the menu entry, nor the handler raises on the [del] and changes
    nothing; the guarded handler removal and the menu removal before it
    pass silently. *)
Theorem unregister_when_absent (h : Bpy) :
  Scene_properties h !! "vertex_color_props" = None →
  "draw_vertex_color_menu" ∉ VIEW3D_MT_edit_mesh_context_menu h →
  "selection_update_handler" ∉ depsgraph_update_post h →
  unregister h = (inl (NoAttribute "vertex_color_props"), h).
Proof.
  intros Hs Hm Hh. rewrite unregister_unfold. simpl.
  rewrite Hs, (list_remove_absent _ _ Hm), (list_remove_absent _ _ Hh).
  by destruct h.
Qed.

(** X15.  Whatever the host and whether it succeeds or raises,
    [unregister] spares what is not the add-on's: the other handlers and
    the other menu entries stay, in their order; classes outside [classes]
    and scene properties other than [vertex_color_props] are as before.
    Of its own handler it removes exactly one entry when there is one, and
    it never raises the error of [list.remove]. *)
Theorem unregister_spares_others (h : Bpy) :
  let h' := snd (unregister h) in
  filter (λ f, f ≠ "selection_update_handler") (depsgraph_update_post h')
    = filter (λ f, f ≠ "selection_update_handler") (depsgraph_update_post h) ∧
  filter (λ f, f ≠ "draw_vertex_color_menu") (VIEW3D_MT_edit_mesh_context_menu h')
    = filter (λ f, f ≠ "draw_vertex_color_menu") (VIEW3D_MT_edit_mesh_context_menu h) ∧
  (∀ c, c ∉ classes → (c ∈ registered_classes h' ↔ c ∈ registered_classes h)) ∧
  (∀ k, k ≠ "vertex_color_props" → Scene_properties h' !! k = Scene_properties h !! k) ∧
  length (depsgraph_update_post h')
    + (if bool_decide ("selection_update_handler" ∈ depsgraph_update_post h)
       then 1 else 0)
    = length (depsgraph_update_post h) ∧
  (∀ x, fst (unregister h) ≠ inl (NotInList x)).
Proof.
  assert (Hlen : length (default (depsgraph_update_post h)
                   (list_remove "selection_update_handler" (depsgraph_update_post h)))
                 + (if bool_decide ("selection_update_handler" ∈ depsgraph_update_post h)
                    then 1 else 0)
                 = length (depsgraph_update_post h)).
  { destruct (bool_decide _) eqn:Hb.
    - apply bool_decide_eq_true_1, list_remove_present in Hb as [l Hl].
      rewrite Hl. simpl. apply list_remove_others in Hl as [_ Hl]. lia.
    - apply bool_decide_eq_false_1, list_remove_absent in Hb.
      rewrite Hb. simpl. lia. }
  rewrite unregister_unfold. cbv zeta.
  destruct (Scene_properties h !! "vertex_color_props") as [cls|] eqn:Hs.
  - set (h2 := {| registered_classes := registered_classes h |}).
    destruct (unregister_classes_run (rev classes) h2) as (S & HS & Hframe & _ & Herr).
    rewrite HS. simpl.
    split; [apply default_list_remove_others|].
    split; [apply default_list_remove_others|].
    split; [intros c Hc; apply Hframe; by rewrite elem_of_rev_classes|].
    split; [intros k Hk; by apply lookup_delete_ne|].
    split; [exact Hlen|].
    intros x Hx. by destruct (Herr _ Hx) as (c & _ & ?).
  - simpl.
    split; [apply default_list_remove_others|].
    split; [apply default_list_remove_others|].
    split; [done|]. split; [done|]. split; [exact Hlen | done].
Qed.

(** X16.  [unregister] succeeds exactly when the scene property exists and
    every class of the add-on is registered.  When it raises, the error is
    the missing scene property or a class that is not registered, and the
    handler and the menu entry have been removed all the same. *)
Theorem unregister_needs_full_registration (h : Bpy) :
  (fst (unregister h) = inr () ↔
     is_Some (Scene_properties h !! "vertex_color_props") ∧
     ∀ c, c ∈ classes → c ∈ registered_classes h) ∧
  (∀ e, fst (unregister h) = inl e →
        (e = NoAttribute "vertex_color_props" ∨
         ∃ c, c ∈ classes ∧ e = NotRegistered c) ∧
        depsgraph_update_post (snd (unregister h))
          = default (depsgraph_update_post h)
              (list_remove "selection_update_handler" (depsgraph_update_post h)) ∧
        VIEW3D_MT_edit_mesh_context_menu (snd (unregister h))
          = default (VIEW3D_MT_edit_mesh_context_menu h)
              (list_remove "draw_vertex_color_menu" (VIEW3D_MT_edit_mesh_context_menu h))).
Proof.
  rewrite unregister_unfold. cbv zeta.
  destruct (Scene_properties h !! "vertex_color_props") as [cls|] eqn:Hs.
  - set (h2 := {| registered_classes := registered_classes h |}).
    destruct (unregister_classes_run (rev classes) h2) as (S & HS & _ & _ & Herr).
    pose proof (unregister_classes_success (rev classes) h2) as Hsucc.
    pose proof (unregister_classes_present (rev classes) h2) as Hpres.
    rewrite HS.
    destruct (for_each (rev classes) unregister_class h2) as [[e|[]] h3];
      cbn [fst snd] in *.
    + split.
      * split; [done|]. intros [_ Hall]. apply Hpres.
        -- apply NoDup_ListNoDup, List.NoDup_rev, NoDup_ListNoDup, classes_NoDup.
        -- intros c Hc. apply Hall. by apply elem_of_rev_classes.
      * intros e' [= <-]. split; [|done]. right.
        destruct (Herr e eq_refl) as (c & Hc & ->). exists c.
        by rewrite <- elem_of_rev_classes.
    + split; [|done]. split; [|done]. intros _. split; [by eexists|].
      intros c Hc. apply (Hsucc eq_refl). by apply elem_of_rev_classes.
  - simpl. split.
    + split; [done|]. by intros [[? ?] _].
    + intros e [= <-]. split; [by left | done].
Qed.

Lemma corners_reverse_faces bm : corners (reverse_faces bm) ≡ₚ corners bm.
Proof.
  unfold corners, reverse_faces; simpl.
  induction (faces bm) as [|f fs IH]; simpl; [done|].
  rewrite map_app, concat_app. simpl. rewrite app_nil_r, IH.
  apply Permutation_app_comm.
Qed.
(** * The theorems at concrete inputs *)

Lemma tint_valid : color_valid tint.
Proof.
  unfold color_valid, channel_valid. simpl.
  repeat split; vm_compute; discriminate.
Qed.

Lemma white_valid : color_valid white.
Proof.
  unfold color_valid, channel_valid. simpl.
  repeat split; vm_compute; discriminate.
Qed.

Lemma tinted_mesh_read :
  Guard_reads white (editing tinted_mesh white true) tint.
Proof.
  eexists _, tinted_mesh, _, _. by repeat split.
Qed.

(** The scenario of the specification: two faces sharing the selected
    vertex, no colour layer.  Apply succeeds, reports one vertex, and the
    Get that follows returns the applied colour. *)
Example shared_vertex_scenario :
  let context := editing shared_vertex_mesh tint false in
  fst (MESH_OT_apply_vertex_color_execute white context)
    = Returned FINISHED (INFO_applied 1) ∧
  fst (MESH_OT_get_vertex_color_execute white
         (snd (MESH_OT_apply_vertex_color_execute white context)))
    = Returned FINISHED (INFO_got tint).
Proof. by split. Qed.

(** Outside the property's range the hard limits take over: the corner of
    [bright_mesh] has red 2, the property stores 1, so the Guard's test
    stays true, yet the context no longer changes. *)
Example Guard_on_out_of_range_color :
  let context := selection_update_handler white (editing bright_mesh white true) in
  current_color context = RGBA 1 (1 # 2) (1 # 4) 1 ∧
  differs_beyond_threshold (current_color context) (RGBA 2 (1 # 2) (1 # 4) 1) = true ∧
  selection_update_handler white context = context.
Proof. by repeat split. Qed.

Lemma Guard_idempotent_witness :
  Nat.iter 3 (selection_update_handler white)
    (selection_update_handler white (editing tinted_mesh white true))
  = selection_update_handler white (editing tinted_mesh white true) ∧
  within_threshold
    (current_color (selection_update_handler white (editing tinted_mesh white true)))
    tint.
Proof.
  destruct (Guard_idempotent white (editing tinted_mesh white true)) as [Hiter Hread].
  split; [apply Hiter|].
  destruct (Hread tint tinted_mesh_read) as [_ Hclose].
  exact (proj1 (Hclose tint_valid)).
Defined.

Lemma tint_8bit : color_8bit tint.
Proof.
  repeat split;
    [exists 51%Z | exists 102%Z | exists 153%Z | exists 255%Z];
    (split; [lia | reflexivity]).
Qed.

Lemma grey_not_8bit : grey_8bit ≠ grey.
Proof. intros Heq. apply (f_equal red) in Heq. discriminate Heq. Qed.

Lemma Apply_completeness_witness :
  some_vertex_selected shared_vertex_mesh ∧
  ∃ bm' coll n,
    fst (MESH_OT_apply_vertex_color_execute white (editing shared_vertex_mesh tint false))
      = Returned FINISHED (INFO_applied n) ∧
    context_bmesh
      (snd (MESH_OT_apply_vertex_color_execute white (editing shared_vertex_mesh tint false)))
      = Some bm' ∧
    verts bm' = verts shared_vertex_mesh ∧
    loops_layers_color bm' = Some coll ∧
    Forall2 (λ f f',
               Forall2 (corner_after_apply white shared_vertex_mesh (active coll) tint)
                       (loops f) (loops f'))
            (faces shared_vertex_mesh) (faces bm') ∧
    (color_8bit tint → layer_store tint = tint).
Proof.
  assert (Hsel : some_vertex_selected shared_vertex_mesh).
  { exists {| select := true |}. split; [constructor | reflexivity]. }
  split; [exact Hsel|].
  exact (Apply_completeness white (editing shared_vertex_mesh tint false)
           shared_vertex_mesh eq_refl Hsel).
Defined.

(** C2 fails on a colour that is not an 8-bit colour: after Apply with mid
    grey the corner of the selected vertex holds 128/255 in every colour
    channel, not 1/2. *)
Lemma Apply_stores_8bit_value :
  let context := editing tinted_mesh grey false in
  some_vertex_selected tinted_mesh ∧
  ∃ bm' l',
    context_bmesh (snd (MESH_OT_apply_vertex_color_execute white context)) = Some bm' ∧
    corners bm' !! 0%nat = Some l' ∧
    loop_vert_select bm' l' = true ∧
    layer_data l' !! "Col" = Some grey_8bit ∧
    grey_8bit ≠ grey.
Proof.
  simpl. split.
  - exists {| select := true |}. split; [constructor | reflexivity].
  - eexists _, _. split; [reflexivity|]. split; [reflexivity|].
    split; [reflexivity|]. split; [reflexivity | exact grey_not_8bit].
Qed.

Lemma Apply_empty_selection_witness :
  no_vertex_selected plain_mesh ∧
  fst (MESH_OT_apply_vertex_color_execute white (editing plain_mesh tint false))
    = NoSelection ∧
  snd (MESH_OT_apply_vertex_color_execute white (editing plain_mesh tint false))
    = editing plain_mesh tint false.
Proof.
  assert (Hno : no_vertex_selected plain_mesh) by (repeat constructor).
  split; [exact Hno|].
  destruct (Apply_empty_selection white (editing plain_mesh tint false) plain_mesh
              eq_refl Hno) as (Hfail & _ & _ & Hsame & _).
  split; [exact Hfail|]. apply Hsame. by eexists.
Defined.

(** C3 fails on a mesh without a colour layer: Apply fails with NoSelection
    and has nevertheless created the layer "Col", so the returned context
    is not the one it was given. *)
Lemma failing_Apply_creates_layer :
  let context := editing unselected_mesh white false in
  let context' := snd (MESH_OT_apply_vertex_color_execute white context) in
  no_vertex_selected unselected_mesh ∧
  fst (MESH_OT_apply_vertex_color_execute white context) = NoSelection ∧
  loops_layers_color <$> context_bmesh context = Some None ∧
  loops_layers_color <$> context_bmesh context'
    = Some (Some {| active := "Col"; others := [] |}) ∧
  context' ≠ context.
Proof.
  simpl. split; [repeat constructor|]. repeat split.
  intros Heq. apply (f_equal (λ c, loops_layers_color <$> context_bmesh c)) in Heq.
  discriminate Heq.
Qed.



Lemma Apply_then_Get_round_trip_witness :
  some_corner_selected shared_vertex_mesh ∧
  color_8bit tint ∧
  fst (MESH_OT_get_vertex_color_execute white
         (snd (MESH_OT_apply_vertex_color_execute white
                 (editing shared_vertex_mesh tint false))))
    = Returned FINISHED (INFO_got tint) ∧
  current_color
    (snd (MESH_OT_get_vertex_color_execute white
            (snd (MESH_OT_apply_vertex_color_execute white
                    (editing shared_vertex_mesh tint false)))))
    = tint.
Proof.
  assert (Hsome : some_corner_selected shared_vertex_mesh).
  { exists (bare 0). split; [constructor | reflexivity]. }
  split; [exact Hsome|]. split; [exact tint_8bit|].
  exact (proj2 (proj2 (proj2
           (Apply_then_Get_round_trip white (editing shared_vertex_mesh tint false)
              shared_vertex_mesh eq_refl Hsome))) tint_8bit).
Defined.

(** C5 fails in two ways.  When the selected vertices belong to no face,
    Apply succeeds on the non-empty selection, writes no corner, and the
    Get that follows fails with NoSelection instead of returning the
    applied colour.  And when the applied colour is not an 8-bit colour,
    Get returns what the layer holds: for mid grey 128/255, not 1/2. *)
Lemma round_trip_selected_vertex_without_corner :
  let context := editing loose_vertex_mesh tint false in
  (some_vertex_selected loose_vertex_mesh ∧
   color_valid tint ∧
   MESH_OT_apply_vertex_color_execute white context
     = (Returned FINISHED (INFO_applied 1), context) ∧
   fst (MESH_OT_get_vertex_color_execute white
          (snd (MESH_OT_apply_vertex_color_execute white context)))
     = NoSelection) ∧
  (some_corner_selected tinted_mesh ∧
   color_valid grey ∧
   fst (MESH_OT_get_vertex_color_execute white
          (snd (MESH_OT_apply_vertex_color_execute white
                  (editing tinted_mesh grey false))))
     = Returned FINISHED (INFO_got grey_8bit) ∧
   grey_8bit ≠ grey).
Proof.
  simpl. split.
  - split; [|split; [exact tint_valid | by split]].
    exists {| select := true |}. split; [|reflexivity].
    unfold loose_vertex_mesh; simpl. repeat constructor.
  - split; [|split; [|split; [reflexivity | exact grey_not_8bit]]].
    + exists {| vert := 0; layer_data := {[ "Col" := tint ]} |}.
      split; [constructor | reflexivity].
    + unfold color_valid, channel_valid. simpl.
      repeat split; vm_compute; discriminate.
Qed.

Lemma Get_failures_mutate_nothing_witness :
  MESH_OT_get_vertex_color_execute white (editing unselected_mesh tint false)
    = (NoColorData, editing unselected_mesh tint false) ∧
  MESH_OT_get_vertex_color_execute white (editing plain_mesh tint false)
    = (NoSelection, editing plain_mesh tint false) ∧
  snd (MESH_OT_get_vertex_color_execute white (editing plain_mesh tint false))
    = editing plain_mesh tint false.
Proof.
  split; [|split].
  - exact (proj1 (Get_failures_mutate_nothing white (editing unselected_mesh tint false))
             unselected_mesh eq_refl eq_refl).
  - apply (proj1 (proj2 (Get_failures_mutate_nothing white (editing plain_mesh tint false)))
             plain_mesh eq_refl).
    + by eexists.
    + repeat constructor.
  - apply (proj1 (proj2 (proj2
             (Get_failures_mutate_nothing white (editing plain_mesh tint false))))).
    intros rep. simpl. discriminate.
Defined.

Lemma Guard_silent_when_inactive_witness :
  auto_pick_color (vertex_color_props (scene (editing tinted_mesh white false))) = false ∧
  selection_update_handler white (editing tinted_mesh white false)
    = editing tinted_mesh white false ∧
  selection_update_try white no_edit_mesh
    {| type := "MESH"; data := {| edit_mesh := None |} |} = Err ValueError ∧
  selection_update_handler white no_edit_mesh = no_edit_mesh.
Proof.
  split; [reflexivity|]. split; [|split; [reflexivity|]].
  - apply Guard_silent_when_inactive. left. reflexivity.
  - apply Guard_silent_when_inactive. do 5 right.
    exists {| type := "MESH"; data := {| edit_mesh := None |} |}, ValueError.
    split; reflexivity.
Defined.

Lemma Apply_reports_selected_vertices_witness :
  some_vertex_selected shared_vertex_mesh ∧
  ∃ bm' coll,
    fst (MESH_OT_apply_vertex_color_execute white (editing shared_vertex_mesh tint false))
      = Returned FINISHED (INFO_applied 1) ∧
    context_bmesh
      (snd (MESH_OT_apply_vertex_color_execute white (editing shared_vertex_mesh tint false)))
      = Some bm' ∧
    loops_layers_color bm' = Some coll ∧
    length (List.filter (loop_vert_select bm') (corners bm')) = 2%nat ∧
    Forall (λ l', layer_data l' !! active coll = Some tint)
           (List.filter (loop_vert_select bm') (corners bm')).
Proof.
  assert (Hsel : some_vertex_selected shared_vertex_mesh).
  { exists {| select := true |}. split; [constructor | reflexivity]. }
  split; [exact Hsel|].
  destruct (proj1 (Apply_reports_selected_vertices white
                     (editing shared_vertex_mesh tint false) shared_vertex_mesh
                     eq_refl Hsel))
    as (bm' & coll & Hrep & Hbm & Hcoll & _ & Hlen & Hall).
  exists bm', coll. split; [exact Hrep|]. split; [exact Hbm|].
  split; [exact Hcoll|]. split; [exact Hlen | exact Hall].
Defined.

(** C8 fails when a selected vertex belongs to no face: Apply reports one
    vertex, yet it has written no corner and returns the context as it
    was, so no vertex was touched. *)
Lemma Apply_counts_vertex_without_corner :
  let context := editing loose_vertex_mesh tint false in
  some_vertex_selected loose_vertex_mesh ∧
  MESH_OT_apply_vertex_color_execute white context
    = (Returned FINISHED (INFO_applied 1), context) ∧
  corners_written loose_vertex_mesh = 0%nat.
Proof.
  simpl. split; [|by split].
  exists {| select := true |}. split; [|reflexivity].
  unfold loose_vertex_mesh; simpl. repeat constructor.
Qed.

Lemma current_color_stays_valid_witness :
  color_valid (current_color (editing tinted_mesh white true)) ∧
  color_valid
    (current_color (selection_update_handler white (editing tinted_mesh white true))).
Proof.
  split; [exact white_valid|].
  exact (proj2 (proj2 (proj2 (proj2
           (current_color_stays_valid white (editing tinted_mesh white true) white_valid))))).
Defined.

Lemma Apply_always_leaves_a_layer_witness :
  context_bmesh (editing unselected_mesh tint false) = Some unselected_mesh ∧
  ∃ bm' coll,
    context_bmesh
      (snd (MESH_OT_apply_vertex_color_execute white (editing unselected_mesh tint false)))
      = Some bm' ∧
    loops_layers_color bm' = Some coll.
Proof.
  split; [reflexivity|].
  destruct (Apply_always_leaves_a_layer white (editing unselected_mesh tint false)
              unselected_mesh eq_refl) as (bm' & coll & Hbm & Hcoll & _).
  by exists bm', coll.
Defined.

(** ** Composition and registration at concrete inputs *)

Lemma near_tint_within : within_threshold near_tint tint.
Proof.
  unfold within_threshold; simpl. repeat split; vm_compute; discriminate.
Qed.

Lemma white_not_within : ¬ within_threshold white tint.
Proof.
  intros (Hr & _). vm_compute in Hr. by apply Hr.
Qed.

Lemma busy_host_absent : addon_absent busy_host.
Proof.
  unfold addon_absent, busy_host; simpl. repeat split.
  - intros cls Hc. unfold classes in Hc. apply not_elem_of_singleton.
    repeat (apply elem_of_cons in Hc as [->|Hc]; [done|]). by apply elem_of_nil in Hc.
  - intros [?|?%elem_of_nil]%elem_of_cons; done.
  - intros [?|?%elem_of_nil]%elem_of_cons; done.
Qed.

Lemma Guard_is_gated_Get_witness :
  selection_update_handler white (editing tinted_mesh near_tint true)
    = editing tinted_mesh near_tint true ∧
  selection_update_handler white (editing tinted_mesh white true)
    = snd (MESH_OT_get_vertex_color_execute white (editing tinted_mesh white true)).
Proof.
  split.
  - apply (proj2 (Guard_is_gated_Get white (editing tinted_mesh near_tint true)) tint).
    + eexists _, tinted_mesh, _, _. by repeat split.
    + exact near_tint_within.
  - apply (proj2 (Guard_is_gated_Get white (editing tinted_mesh white true)) tint).
    + exact tinted_mesh_read.
    + exact white_not_within.
Defined.


(** Mid grey is not within 0.001 of what the layer holds of it, and there
    the handler does replace the colour that was just applied. *)
Example Guard_after_Apply_of_grey :
  current_color
    (selection_update_handler white
       (snd (MESH_OT_apply_vertex_color_execute white
               (editing shared_vertex_mesh grey true))))
  = grey_8bit.
Proof. reflexivity. Qed.

Lemma operators_raise_exactly_when_witness :
  poll no_edit_mesh = true ∧
  fst (MESH_OT_get_vertex_color_execute white no_edit_mesh) = Raised ValueError ∧
  fst (MESH_OT_apply_vertex_color_execute white no_edit_mesh) = Raised ValueError ∧
  snd (MESH_OT_apply_vertex_color_execute white no_edit_mesh) = no_edit_mesh.
Proof.
  assert (Hget : fst (MESH_OT_get_vertex_color_execute white no_edit_mesh)
                 = Raised ValueError).
  { apply (proj2 (proj2 (proj2 (proj2 (proj2
             (operators_raise_exactly_when white no_edit_mesh ValueError)))) eq_refl)).
    split; reflexivity. }
  assert (Happ : fst (MESH_OT_apply_vertex_color_execute white no_edit_mesh)
                 = Raised ValueError).
  { exact (proj2 (proj1 (operators_raise_exactly_when white no_edit_mesh ValueError))
             Hget). }
  split; [reflexivity|]. split; [exact Hget|]. split; [exact Happ|].
  exact (proj1 (proj2 (proj2
           (operators_raise_exactly_when white no_edit_mesh ValueError))) Happ).
Defined.

Lemma Get_succeeds_only_where_Apply_does_witness :
  fst (MESH_OT_get_vertex_color_execute white (editing tinted_mesh white false))
    = Returned FINISHED (INFO_got tint) ∧
  ∃ n, fst (MESH_OT_apply_vertex_color_execute white (editing tinted_mesh white false))
         = Returned FINISHED (INFO_applied n) ∧ 1 ≤ n.
Proof.
  split; [reflexivity|].
  exact (proj1 (Get_succeeds_only_where_Apply_does white
                  (editing tinted_mesh white false)) tint eq_refl).
Defined.

Lemma Get_after_Apply_any_order_witness :
  corners (reverse_faces applied_mesh) ≡ₚ corners applied_mesh ∧
  some_corner_selected (reverse_faces applied_mesh) ∧
  fst (MESH_OT_get_vertex_color_execute white
         (with_bmesh
            (snd (MESH_OT_apply_vertex_color_execute white
                    (editing shared_vertex_mesh tint false)))
            {| type := "MESH"; data := {| edit_mesh := None |} |}
            (reverse_faces applied_mesh)))
    = Returned FINISHED (INFO_got tint).
Proof.
  assert (Hsome : some_corner_selected (reverse_faces applied_mesh)).
  { exists (loop_setitem (loop_setitem (bare 0) "Col" white) "Col" tint).
    split; [left | reflexivity]. }
  split; [apply corners_reverse_faces|]. split; [exact Hsome|].
  exact (Get_after_Apply_any_order white (editing shared_vertex_mesh tint false)
           applied_mesh (reverse_faces applied_mesh) _ 1
           eq_refl eq_refl eq_refl eq_refl (corners_reverse_faces applied_mesh) Hsome).
Defined.

Lemma unregister_undoes_register_witness :
  addon_absent busy_host ∧
  fst (register busy_host) = inr () ∧
  unregister (snd (register busy_host)) = (inr (), busy_host).
Proof.
  split; [exact busy_host_absent|].
  exact (unregister_undoes_register busy_host busy_host_absent).
Defined.

Lemma register_subscribes_handler_once_witness :
  fst (register busy_host) = inr () ∧
  "selection_update_handler" ∈ depsgraph_update_post (snd (register busy_host)).
Proof.
  split; [reflexivity|].
  exact (proj1 (proj2 (register_subscribes_handler_once busy_host) eq_refl)).
Defined.

Lemma register_succeeds_iff_classes_free_witness :
  (∀ c, c ∈ classes → c ∉ registered_classes busy_host) ∧
  fst (register busy_host) = inr ().
Proof.
  split; [exact (proj1 busy_host_absent)|].
  exact (proj2 (proj1 (register_succeeds_iff_classes_free busy_host)) (proj1 busy_host_absent)).
Defined.

Lemma register_twice_changes_nothing_witness :
  fst (register busy_host) = inr () ∧
  register (snd (register busy_host))
    = (inl (AlreadyRegistered "VertexColorProperties"), snd (register busy_host)).
Proof.
  split; [reflexivity|].
  exact (register_twice_changes_nothing busy_host eq_refl).
Defined.

Lemma unregister_when_absent_witness :
  Scene_properties busy_host !! "vertex_color_props" = None ∧
  unregister busy_host = (inl (NoAttribute "vertex_color_props"), busy_host).
Proof.
  split; [reflexivity|].
  destruct busy_host_absent as (_ & Hs & Hm & Hh).
  exact (unregister_when_absent busy_host Hs Hm Hh).
Defined.

Lemma unregister_spares_others_witness :
  ("OTHER_OT_tool" ∉ classes) ∧
  ("OTHER_OT_tool" ∈ registered_classes (snd (unregister (snd (register busy_host))))
   ↔ "OTHER_OT_tool" ∈ registered_classes (snd (register busy_host))).
Proof.
  assert (Hother : "OTHER_OT_tool" ∉ classes).
  { unfold classes. intros Hc.
    repeat (apply elem_of_cons in Hc as [?|Hc]; [done|]). by apply elem_of_nil in Hc. }
  split; [exact Hother|].
  exact (proj1 (proj2 (proj2 (unregister_spares_others (snd (register busy_host)))))
           "OTHER_OT_tool" Hother).
Defined.

Lemma unregister_needs_full_registration_witness :
  fst (unregister busy_host) = inl (NoAttribute "vertex_color_props") ∧
  depsgraph_update_post (snd (unregister busy_host)) = depsgraph_update_post busy_host.
Proof.
  split; [reflexivity|].
  exact (proj1 (proj2 (proj2 (unregister_needs_full_registration busy_host)
                         (NoAttribute "vertex_color_props") eq_refl))).
Defined.

Lemma session_invariant_witness :
  vertex_color_props (scene (editing tinted_mesh white false))
    = VertexColorProperties_init ∧
  color_valid
    (current_color
       (session white [DepsgraphUpdate; PressGet; PressApply; DepsgraphUpdate]
          (editing tinted_mesh white false))) ∧
  auto_pick_color
    (vertex_color_props
       (scene (session white [DepsgraphUpdate; PressGet; PressApply; DepsgraphUpdate]
                 (editing tinted_mesh white false)))) = false.
Proof.
  split; [reflexivity|].
  exact (proj2 (proj2 (proj2
           (session_invariant white [DepsgraphUpdate; PressGet; PressApply; DepsgraphUpdate]
              (editing tinted_mesh white false)))) eq_refl).
Defined.
